(** * PDF page extractor: range selection, loading and extraction

    A shallow embedding of [src/app/page.tsx] (the [Home] component, in its
    three variants) and the properties of its handlers.

    Conventions.
    - A JavaScript [number] that holds a page number or a byte count is an
      integer here ([Z]); [NaN], which only [parseInt] can produce, is [None].
    - React state is the record [State]; a setter overwrites one field.
    - An [async] handler is split where it first awaits: the part before runs
      with the event, the part after runs when the awaited work settles.  All
      state writes of [loadPdf] and [extractPages] after their first [await]
      happen in one synchronous stretch, so two halves are exact.
    - The browser (object URLs, downloads) is the record [World].
    - pdf-lib is the interface [PdfLib]. *)

From Stdlib Require Import ZArith List String Ascii Bool Lia Sorted.
From Stdlib Require Import QArith Qround DecimalString DecimalPos.
Import ListNotations.

Open Scope string_scope.
Open Scope list_scope.
Open Scope Z_scope.

(** ** Option as the exception monad of [try]/[catch] *)

Definition bind_opt {A B : Type} (m : option A) (k : A -> option B) : option B :=
  match m with
  | Some a => k a
  | None => None
  end.

Notation "x <- m ;; k" := (bind_opt m (fun x => k))
  (at level 61, m at next level, right associativity).

(** ** JavaScript built-ins used by the component *)

Module JS.

(** [String(n)] and template interpolation of an integer. *)
Definition toString (n : Z) : string := NilZero.string_of_int (Z.to_int n).

(** Leading white space skipped by [parseInt] (the ASCII part of it). *)
Definition isWhiteSpace (c : ascii) : bool :=
  let n := nat_of_ascii c in
  ((n =? 9) || (n =? 10) || (n =? 11) || (n =? 12) || (n =? 13) || (n =? 32))%nat.

Fixpoint trimStart (s : string) : string :=
  match s with
  | String c s' => if isWhiteSpace c then trimStart s' else s
  | EmptyString => s
  end.

Definition digitValue (radix : Z) (c : ascii) : option Z :=
  let n := Z.of_nat (nat_of_ascii c) in
  let v :=
    if (48 <=? n) && (n <=? 57) then Some (n - 48)
    else if (97 <=? n) && (n <=? 122) then Some (n - 87)
    else if (65 <=? n) && (n <=? 90) then Some (n - 55)
    else None in
  match v with
  | Some d => if d <? radix then Some d else None
  | None => None
  end.

(** Value of the longest prefix of digits; [acc] is [None] until a digit
    has been read. *)
Fixpoint parseDigits (radix : Z) (s : string) (acc : option Z) : option Z :=
  match s with
  | String c s' =>
      match digitValue radix c with
      | Some d =>
          parseDigits radix s'
            (Some (radix * match acc with Some a => a | None => 0 end + d))
      | None => acc
      end
  | EmptyString => acc
  end.

(** [parseInt(s)] with no radix argument; [None] is [NaN]. *)
Definition parseInt (s : string) : option Z :=
  let s1 := trimStart s in
  let '(sign, s2) :=
    match s1 with
    | String "-"%char r => (-1, r)
    | String "+"%char r => (1, r)
    | _ => (1, s1)
    end in
  let '(radix, s3) :=
    match s2 with
    | String "0"%char (String "x"%char r) => (16, r)
    | String "0"%char (String "X"%char r) => (16, r)
    | _ => (10, s2)
    end in
  option_map (Z.mul sign) (parseDigits radix s3 None).

(** [v || d] on a number: [NaN] and [0] are falsy. *)
Definition orElse (v : option Z) (d : Z) : Z :=
  match v with
  | None => d
  | Some 0 => d
  | Some n => n
  end.

Definition Math_max (a b : Z) : Z := Z.max a b.
Definition Math_min (a b : Z) : Z := Z.min a b.
Definition Math_ceil (x : Q) : Z := Qceiling x.

Fixpoint dropChars (n : nat) (s : string) : string :=
  match n, s with
  | O, _ => s
  | S n', String _ s' => dropChars n' s'
  | S _, EmptyString => EmptyString
  end.

(** [s.replace(pat, rep)] with a string pattern: the first occurrence only. *)
Fixpoint String_replace (s pat rep : string) {struct s} : string :=
  if String.prefix pat s then (rep ++ dropChars (String.length pat) s)%string
  else
    match s with
    | String c s' => String c (String_replace s' pat rep)
    | EmptyString => EmptyString
    end.

(** [x.toFixed(1)] for [x >= 0]: the nearest tenth, the larger on a tie. *)
Definition toFixed1 (x : Q) : string :=
  let n := Qfloor (x * inject_Z 10 + (1 # 2))%Q in
  (toString (n / 10) ++ "." ++ toString (n mod 10))%string.

End JS.

(** ** The document library (pdf-lib) *)

Definition ArrayBuffer := list Byte.byte.

(** Modelled from the spec: the external document library, which is not part
    of this repository.  [PDFDocument_load] is [openDocument] (it throws on
    bytes it rejects), [PDFDocument_save] is [serializeDocument]; a document
    is the sequence of its pages. *)
Class PdfLib := {
  PDFPage : Type;
  PDFDocument_load : ArrayBuffer -> option (list PDFPage);
  PDFDocument_save : list PDFPage -> option ArrayBuffer
}.

Section Library.
Context {L : PdfLib}.

Definition PDFDocument := list PDFPage.

Definition PDFDocument_create : PDFDocument := [].

Definition getPageCount (doc : PDFDocument) : Z := Z.of_nat (List.length doc).

(** [arr[i]]: [undefined] outside the array. *)
Definition at_index {A : Type} (arr : list A) (i : Z) : option A :=
  if i <? 0 then None else nth_error arr (Z.to_nat i).

(** Modelled from the spec: [copyPages(sourceDoc, zeroIndexedPageList)]
    returns the pages at the listed indices, in list order, and throws when
    an index names no page. *)
Fixpoint copyPages (srcDoc : PDFDocument) (indices : list Z) : option (list PDFPage) :=
  match indices with
  | [] => Some []
  | i :: rest =>
      page <- at_index srcDoc i ;;
      pages <- copyPages srcDoc rest ;;
      Some (page :: pages)
  end.

Definition addPage (doc : PDFDocument) (page : PDFPage) : PDFDocument := doc ++ [page].

End Library.

(** ** The browser *)

Record File := {
  file_name : string;
  file_type : string;
  file_size : Z;
  (** [await file.arrayBuffer()]; [None] when the read rejects *)
  file_arrayBuffer : option ArrayBuffer
}.

Record Blob := { blob_parts : ArrayBuffer; blob_type : string }.

Record Download := { download : string; href : Blob }.

Record World := {
  objectURLs : list (nat * Blob);
  nextURL : nat;
  downloads : list Download
}.

Definition URL_createObjectURL (blob : Blob) (w : World) : nat * World :=
  (nextURL w,
   {| objectURLs := (nextURL w, blob) :: objectURLs w;
      nextURL := S (nextURL w);
      downloads := downloads w |}).

Definition URL_revokeObjectURL (url : nat) (w : World) : World :=
  {| objectURLs := filter (fun e => negb (Nat.eqb (fst e) url)) (objectURLs w);
     nextURL := nextURL w;
     downloads := downloads w |}.

Fixpoint resolveURL (urls : list (nat * Blob)) (url : nat) : option Blob :=
  match urls with
  | [] => None
  | (u, b) :: rest => if Nat.eqb u url then Some b else resolveURL rest url
  end.

(** [link.click()] on an anchor with [href] and [download] set. *)
Definition link_click (link_href : nat) (link_download : string) (w : World) : World :=
  match resolveURL (objectURLs w) link_href with
  | Some blob =>
      {| objectURLs := objectURLs w;
         nextURL := nextURL w;
         downloads := downloads w ++ [{| download := link_download; href := blob |}] |}
  | None => w
  end.

(** ** Component state *)

(** The three variants of the page: the first has the live preview. *)
Inductive Variant := VPreview | VSerif | VIndigo.

Record PdfInfo := {
  name : string;
  pageCount : Z;
  size : string;
  data : ArrayBuffer;
  (** only the preview variant has this field *)
  url : option nat
}.

Record State := {
  pdfInfo : option PdfInfo;
  startPage : Z;
  endPage : Z;
  isDragging : bool;
  isProcessing : bool;
  error : option string
}.

Definition initialState : State :=
  {| pdfInfo := None; startPage := 1; endPage := 1;
     isDragging := false; isProcessing := false; error := None |}.

Definition initialWorld : World :=
  {| objectURLs := []; nextURL := 0%nat; downloads := [] |}.

Definition setPdfInfo (v : option PdfInfo) (st : State) : State :=
  {| pdfInfo := v; startPage := startPage st; endPage := endPage st;
     isDragging := isDragging st; isProcessing := isProcessing st; error := error st |}.

Definition setStartPage (v : Z) (st : State) : State :=
  {| pdfInfo := pdfInfo st; startPage := v; endPage := endPage st;
     isDragging := isDragging st; isProcessing := isProcessing st; error := error st |}.

Definition setEndPage (v : Z) (st : State) : State :=
  {| pdfInfo := pdfInfo st; startPage := startPage st; endPage := v;
     isDragging := isDragging st; isProcessing := isProcessing st; error := error st |}.

Definition setIsDragging (v : bool) (st : State) : State :=
  {| pdfInfo := pdfInfo st; startPage := startPage st; endPage := endPage st;
     isDragging := v; isProcessing := isProcessing st; error := error st |}.

Definition setIsProcessing (v : bool) (st : State) : State :=
  {| pdfInfo := pdfInfo st; startPage := startPage st; endPage := endPage st;
     isDragging := isDragging st; isProcessing := v; error := error st |}.

Definition setError (v : option string) (st : State) : State :=
  {| pdfInfo := pdfInfo st; startPage := startPage st; endPage := endPage st;
     isDragging := isDragging st; isProcessing := isProcessing st; error := v |}.

(** ** User-facing messages *)

Definition msgLoadFailed (v : Variant) : string :=
  match v with
  | VIndigo => "Failed to load PDF. Please make sure the file is a valid PDF."
  | _ => "Unable to read this file. Please ensure it's a valid PDF."
  end.

Definition msgSelectPdf (v : Variant) : string :=
  match v with
  | VIndigo => "Please select a valid PDF file."
  | _ => "Please select a PDF file."
  end.

Definition msgDropPdf (v : Variant) : string :=
  match v with
  | VIndigo => "Please drop a valid PDF file."
  | _ => "Please drop a PDF file."
  end.

Definition msgExtractFailed (v : Variant) : string :=
  match v with
  | VIndigo => "Failed to extract pages. Please try again."
  | _ => "Something went wrong. Please try again."
  end.

Definition formatFileSize (bytes : Z) : string :=
  if bytes <? 1024 then (JS.toString bytes ++ " B")%string
  else if bytes <? 1024 * 1024 then
    (JS.toFixed1 (inject_Z bytes / inject_Z 1024)%Q ++ " KB")%string
  else (JS.toFixed1 (inject_Z bytes / inject_Z (1024 * 1024))%Q ++ " MB")%string.


(** ** Asynchronous calls in flight

    What an [async] handler still has to do once its awaits settle.  The
    closure values of [extractPages] ([pdfInfo], [startPage], [endPage]) are
    those of the render in which it was called. *)
Inductive Task :=
| LoadPdfTask (file : File)
| ExtractPagesTask (info : PdfInfo) (start_page end_page : Z).

Section Home.
Context {L : PdfLib}.
Variable v : Variant.

(** *** loadPdf *)

Definition loadPdf_begin (st : State) : State :=
  setIsProcessing true (setError None st).

(** The [try] block up to the object handed to [setPdfInfo]. *)
Definition loadPdf_try (file : File) (w : World) : option (PdfInfo * World) :=
  arrayBuffer <- file_arrayBuffer file ;;
  pdf <- PDFDocument_load arrayBuffer ;;
  let page_count := getPageCount pdf in
  match v with
  | VPreview =>
      let blob := {| blob_parts := arrayBuffer; blob_type := "application/pdf" |} in
      let '(u, w') := URL_createObjectURL blob w in
      Some ({| name := file_name file; pageCount := page_count;
               size := formatFileSize (file_size file);
               data := arrayBuffer; url := Some u |}, w')
  | _ =>
      Some ({| name := file_name file; pageCount := page_count;
               size := formatFileSize (file_size file);
               data := arrayBuffer; url := None |}, w)
  end.

Definition loadPdf_end (file : File) (st : State) (w : World) : State * World :=
  match loadPdf_try file w with
  | Some (info, w') =>
      (setIsProcessing false
         (setEndPage (pageCount info)
            (setStartPage 1
               (setPdfInfo (Some info) st))), w')
  | None =>
      (setIsProcessing false
         (setPdfInfo None
            (setError (Some (msgLoadFailed v)) st)), w)
  end.

(** *** extractPages *)

(** [for (let i = start; i <= end; i++) pageIndices.push(i)]; the loop runs
    at most [fuel] times. *)
Fixpoint pushIndices (fuel : nat) (i end_ : Z) (pageIndices : list Z) : list Z :=
  match fuel with
  | O => pageIndices
  | S fuel' =>
      if i <=? end_ then pushIndices fuel' (i + 1) end_ (pageIndices ++ [i])
      else pageIndices
  end.

Definition pageIndicesOf (start end_ : Z) : list Z :=
  pushIndices (Z.to_nat (end_ - start + 1)) start end_ [].

(** The destination document just before [newPdf.save()]. *)
Definition extractPages_newPdf (info : PdfInfo) (start_page end_page : Z)
  : option PDFDocument :=
  sourcePdf <- PDFDocument_load (data info) ;;
  let newPdf := PDFDocument_create in
  let start := start_page - 1 in
  let end_ := end_page - 1 in
  let pageIndices := pageIndicesOf start end_ in
  pages <- copyPages sourcePdf pageIndices ;;
  Some (fold_left addPage pages newPdf).

Definition downloadName (info : PdfInfo) (start_page end_page : Z) : string :=
  let baseName := JS.String_replace (name info) ".pdf" EmptyString in
  (baseName ++ "_pages_" ++ JS.toString start_page ++ "-"
     ++ JS.toString end_page ++ ".pdf")%string.

(** The whole [try] block. *)
Definition extractPages_try (info : PdfInfo) (start_page end_page : Z) (w : World)
  : option World :=
  newPdf <- extractPages_newPdf info start_page end_page ;;
  pdfBytes <- PDFDocument_save newPdf ;;
  let blob := {| blob_parts := pdfBytes; blob_type := "application/pdf" |} in
  let '(u, w1) := URL_createObjectURL blob w in
  let w2 := link_click u (downloadName info start_page end_page) w1 in
  Some (URL_revokeObjectURL u w2).

Definition extractPages_begin (st : State) : State * option Task :=
  match pdfInfo st with
  | None => (st, None)
  | Some info =>
      (setIsProcessing true (setError None st),
       Some (ExtractPagesTask info (startPage st) (endPage st)))
  end.

Definition extractPages_end (info : PdfInfo) (start_page end_page : Z)
           (st : State) (w : World) : State * World :=
  match extractPages_try info start_page end_page w with
  | Some w' => (setIsProcessing false st, w')
  | None =>
      (setIsProcessing false (setError (Some (msgExtractFailed v)) st), w)
  end.

(** *** Resuming and running to completion *)

Definition resume (t : Task) (st : State) (w : World) : State * World :=
  match t with
  | LoadPdfTask file => loadPdf_end file st w
  | ExtractPagesTask info s e => extractPages_end info s e st w
  end.

(** A handler followed at once by the rest of the call it started: the
    behaviour when nothing else happens in between. *)
Definition settleNow (r : State * option Task) (w : World) : State * World :=
  match r with
  | (st, Some t) => resume t st w
  | (st, None) => (st, w)
  end.

Definition loadPdf (file : File) (st : State) (w : World) : State * World :=
  settleNow (loadPdf_begin st, Some (LoadPdfTask file)) w.

Definition extractPages (st : State) (w : World) : State * World :=
  settleNow (extractPages_begin st) w.

(** *** File picker and drop zone *)

(** [files0] is [e.target.files?.[0]]. *)
Definition handleFileSelect_begin (files0 : option File) (st : State)
  : State * option Task :=
  match files0 with
  | Some file =>
      if String.eqb (file_type file) "application/pdf"
      then (loadPdf_begin st, Some (LoadPdfTask file))
      else (setError (Some (msgSelectPdf v)) st, None)
  | None => (st, None)
  end.

Definition handleDragOver (st : State) : State := setIsDragging true st.

Definition handleDragLeave (st : State) : State := setIsDragging false st.

(** [files0] is [e.dataTransfer.files[0]]. *)
Definition handleDrop_begin (files0 : option File) (st : State)
  : State * option Task :=
  let st := setIsDragging false st in
  match files0 with
  | Some file =>
      if String.eqb (file_type file) "application/pdf"
      then (loadPdf_begin st, Some (LoadPdfTask file))
      else (setError (Some (msgDropPdf v)) st, None)
  | None => (st, None)
  end.

Definition handleFileSelect (files0 : option File) (st : State) (w : World)
  : State * World :=
  settleNow (handleFileSelect_begin files0 st) w.

Definition handleDrop (files0 : option File) (st : State) (w : World)
  : State * World :=
  settleNow (handleDrop_begin files0 st) w.

(** *** Derived values of a render *)

Definition isValidRange (st : State) : bool :=
  match pdfInfo st with
  | None => false
  | Some info =>
      (startPage st >=? 1) && (endPage st >=? startPage st)
      && (endPage st <=? pageCount info)
  end.

Definition selectedPageCount (st : State) : Z :=
  if isValidRange st then endPage st - startPage st + 1 else 0.

(** The [disabled] attribute of the extract button. *)
Definition extractDisabled (st : State) : bool :=
  negb (isValidRange st) || isProcessing st.

Definition pageNumbers (st : State) : list Z :=
  match pdfInfo st with
  | None => []
  | Some info =>
      map (fun i => Z.of_nat i + 1) (seq 0 (Z.to_nat (pageCount info)))
  end.

Definition isPageSelected (st : State) (pageNum : Z) : bool :=
  (pageNum >=? startPage st) && (pageNum <=? endPage st).

Definition isPageVisible (st : State) (pageNum : Z) : bool :=
  (pageNum >=? startPage st) && (pageNum <=? endPage st).

(** *** Editor controls; [info] is the [pdfInfo] of the render *)

Definition resetFile (st : State) (w : World) : State * World :=
  let w' :=
    match v, pdfInfo st with
    | VPreview, Some info =>
        match url info with
        | Some u => URL_revokeObjectURL u w
        | None => w
        end
    | _, _ => w
    end in
  (setError None (setEndPage 1 (setStartPage 1 (setPdfInfo None st))), w').

Definition clamp (val page_count : Z) : Z :=
  JS.Math_max 1 (JS.Math_min val page_count).

Definition onChangeStart (info : PdfInfo) (value : string) (st : State) : State :=
  let val := JS.orElse (JS.parseInt value) 1 in
  setStartPage (clamp val (pageCount info)) st.

Definition onChangeEnd (info : PdfInfo) (value : string) (st : State) : State :=
  let val := JS.orElse (JS.parseInt value) 1 in
  setEndPage (clamp val (pageCount info)) st.

Definition clickAll (info : PdfInfo) (st : State) : State :=
  setEndPage (pageCount info) (setStartPage 1 st).

Definition clickFirst (st : State) : State :=
  setEndPage 1 (setStartPage 1 st).

Definition clickLast (info : PdfInfo) (st : State) : State :=
  setEndPage (pageCount info) (setStartPage (pageCount info) st).

Definition clickFirstHalf (info : PdfInfo) (st : State) : State :=
  setEndPage (JS.Math_ceil (inject_Z (pageCount info) / inject_Z 2)%Q)
    (setStartPage 1 st).

(** The condition under which the first-half button is rendered. *)
Definition firstHalfOffered (info : PdfInfo) : bool :=
  match v with
  | VIndigo => pageCount info >? 1
  | _ => pageCount info >? 2
  end.

(** Click on the thumbnail of [pageNum] (preview variant). *)
Definition clickThumb (pageNum : Z) (st : State) : State :=
  setEndPage pageNum (setStartPage pageNum st).

End Home.

(** ** The page as an event-driven system

    One event is handled at a time; a render follows each event, so every
    handler sees the current state.  [inflight] holds the async calls that
    were started and have not settled.  An event is accepted only when the
    control that raises it is on screen and enabled. *)

Record Sys := { ui : State; world : World; inflight : list Task }.

Inductive Event :=
| FilePicked (files0 : option File)
| FileDropped (files0 : option File)
| DragOver
| DragLeave
| TypedStart (value : string)
| TypedEnd (value : string)
| PressAll
| PressFirst
| PressLast
| PressFirstHalf
| PressThumb (pageNum : Z)
| PressRemove
| PressExtract
| Settled (k : nat).

Definition initialSys : Sys :=
  {| ui := initialState; world := initialWorld; inflight := [] |}.

Definition withUi (s : Sys) (st : State) : Sys :=
  {| ui := st; world := world s; inflight := inflight s |}.

Definition spawn (s : Sys) (r : State * option Task) : Sys :=
  {| ui := fst r; world := world s;
     inflight := inflight s ++ match snd r with Some t => [t] | None => [] end |}.

Definition removeNth {A : Type} (k : nat) (l : list A) : list A :=
  firstn k l ++ skipn (S k) l.

Section System.
Context {L : PdfLib}.
Variable v : Variant.

Definition step (e : Event) (s : Sys) : option Sys :=
  match e with
  | Settled k =>
      match nth_error (inflight s) k with
      | Some t =>
          let '(st, w) := resume v t (ui s) (world s) in
          Some {| ui := st; world := w; inflight := removeNth k (inflight s) |}
      | None => None
      end
  | _ =>
      match pdfInfo (ui s) with
      | None =>
          (* the drop zone and its hidden file input *)
          match e with
          | FilePicked files0 => Some (spawn s (handleFileSelect_begin v files0 (ui s)))
          | FileDropped files0 => Some (spawn s (handleDrop_begin v files0 (ui s)))
          | DragOver => Some (withUi s (handleDragOver (ui s)))
          | DragLeave => Some (withUi s (handleDragLeave (ui s)))
          | _ => None
          end
      | Some info =>
          (* the editor *)
          match e with
          | TypedStart value => Some (withUi s (onChangeStart info value (ui s)))
          | TypedEnd value => Some (withUi s (onChangeEnd info value (ui s)))
          | PressAll => Some (withUi s (clickAll info (ui s)))
          | PressFirst => Some (withUi s (clickFirst (ui s)))
          | PressLast => Some (withUi s (clickLast info (ui s)))
          | PressFirstHalf =>
              if firstHalfOffered v info
              then Some (withUi s (clickFirstHalf info (ui s)))
              else None
          | PressThumb pageNum =>
              match v with
              | VPreview =>
                  if existsb (Z.eqb pageNum) (pageNumbers (ui s))
                  then Some (withUi s (clickThumb pageNum (ui s)))
                  else None
              | _ => None
              end
          | PressRemove =>
              let '(st, w) := resetFile v (ui s) (world s) in
              Some {| ui := st; world := w; inflight := inflight s |}
          | PressExtract =>
              if extractDisabled (ui s) then None
              else Some (spawn s (extractPages_begin (ui s)))
          | _ => None
          end
      end
  end.

Fixpoint run (es : list Event) (s : Sys) : option Sys :=
  match es with
  | [] => Some s
  | e :: es' => s' <- step e s ;; run es' s'
  end.

Definition isLoad (t : Task) : bool :=
  match t with LoadPdfTask _ => true | _ => false end.

Definition isExtract (t : Task) : bool :=
  match t with ExtractPagesTask _ _ _ => true | _ => false end.

Definition loadsInFlight (s : Sys) : nat := List.length (filter isLoad (inflight s)).

Definition extractsInFlight (s : Sys) : nat := List.length (filter isExtract (inflight s)).

End System.

(** ** What the specification says, for comparison *)

(** The list [[s-1; s; ...; e-1]]. *)
Definition zeroIndexedRange (s e : Z) : list Z :=
  map (fun k => s - 1 + Z.of_nat k) (seq 0 (Z.to_nat (e - s + 1))).

(** [e] is [ceil (n / 2)]: the least integer not below [n / 2]. *)
Definition isCeilHalf (n e : Z) : Prop := n <= 2 * e /\ 2 * (e - 1) < n.

Fixpoint endsWith (suffix s : string) : bool :=
  String.eqb s suffix ||
  match s with
  | String _ s' => endsWith suffix s'
  | EmptyString => false
  end.

(** A file name without its [.pdf] extension. *)
Definition withoutPdfExtension (file : string) : string :=
  if endsWith ".pdf" file
  then String.substring 0 (String.length file - 4) file
  else file.

(** The output name [<original-basename>_pages_<start>-<end>.pdf]. *)
Definition specDownloadName (file : string) (s e : Z) : string :=
  (withoutPdfExtension file ++ "_pages_" ++ JS.toString s ++ "-"
     ++ JS.toString e ++ ".pdf")%string.

(** ** A small library instance and sample inputs

    A document is the byte [%] followed by one byte per page. *)

Definition byteLib : PdfLib :=
  {| PDFPage := Byte.byte;
     PDFDocument_load := fun b =>
       match b with
       | m :: pages => if Byte.eqb m Byte.x25 then Some pages else None
       | [] => None
       end;
     PDFDocument_save := fun pages => Some (Byte.x25 :: pages) |}.

Definition tenPages : ArrayBuffer :=
  [Byte.x25; Byte.x30; Byte.x31; Byte.x32; Byte.x33; Byte.x34;
   Byte.x35; Byte.x36; Byte.x37; Byte.x38; Byte.x39].

Definition pdfFile (file : string) (content : ArrayBuffer) : File :=
  {| file_name := file; file_type := "application/pdf";
     file_size := Z.of_nat (List.length content);
     file_arrayBuffer := Some content |}.

Definition textFile : File :=
  {| file_name := "notes.txt"; file_type := "text/plain"; file_size := 3;
     file_arrayBuffer := Some [Byte.x61; Byte.x62; Byte.x63] |}.

Definition tenPageInfo : PdfInfo :=
  {| name := "doc.pdf"; pageCount := 10; size := "11 B";
     data := tenPages; url := None |}.

Definition readyState (info : PdfInfo) (s e : Z) : State :=
  {| pdfInfo := Some info; startPage := s; endPage := e;
     isDragging := false; isProcessing := false; error := None |}.


(** ** Invariants of the running page *)

(** Every live object URL was handed out earlier: it is below the next one. *)
Definition worldFresh (w : World) : Prop :=
  Forall (fun e => (fst e < nextURL w)%nat) (objectURLs w).

(** A download that is a PDF by type and by name. *)
Definition pdfDownloadOk (d : Download) : Prop :=
  blob_type (href d) = "application/pdf" /\ endsWith ".pdf" (download d) = true.

(** Both bounds lie in the document, when it has a page at all. *)
Definition boundsInDocument (st : State) : Prop :=
  forall info, pdfInfo st = Some info -> 1 <= pageCount info ->
    1 <= startPage st <= pageCount info /\ 1 <= endPage st <= pageCount info.

(** The range captured by every extraction in flight is a valid one. *)
Definition capturedRangesValid (s : Sys) : Prop :=
  forall info a b, In (ExtractPagesTask info a b) (inflight s) ->
    1 <= a /\ a <= b /\ b <= pageCount info.

(** The object URLs a page state may hold.  Live URLs are fresh and pairwise
    distinct; in the preview variant the URL recorded with the document on
    screen is live and names a PDF blob of the document's bytes; the other
    variants keep no object URL. *)
Definition objectUrlsOk (v : Variant) (st : State) (w : World) : Prop :=
  worldFresh w
  /\ NoDup (map fst (objectURLs w))
  /\ match v with
     | VPreview =>
         forall info, pdfInfo st = Some info ->
           exists u, url info = Some u
             /\ In (u, {| blob_parts := data info; blob_type := "application/pdf" |})
                   (objectURLs w)
     | _ => objectURLs w = []
     end.

(** ** Loaded documents *)

(** The recorded bytes open, and the recorded page count is that of the
    document they open to. *)
Definition loadedInfo {L : PdfLib} (info : PdfInfo) : Prop :=
  exists src, PDFDocument_load (data info) = Some src
              /\ pageCount info = getPageCount src.

(** Every document on screen or captured by a running extraction is a loaded
    one. *)
Definition sysLoaded {L : PdfLib} (s : Sys) : Prop :=
  (forall info, pdfInfo (ui s) = Some info -> loadedInfo info)
  /\ (forall info a b, In (ExtractPagesTask info a b) (inflight s) -> loadedInfo info).

(** ** Outcomes of the fallible steps *)

(** What opening a file yields: its bytes and the document, or nothing when
    the read or the open fails. *)
Definition openFile {L : PdfLib} (file : File) : option (ArrayBuffer * PDFDocument) :=
  buf <- file_arrayBuffer file ;;
  pdf <- PDFDocument_load buf ;;
  Some (buf, pdf).

(** The serialized output of an extraction, when every step succeeds. *)
Definition extractedBytes {L : PdfLib} (info : PdfInfo) (s e : Z) : option ArrayBuffer :=
  newPdf <- extractPages_newPdf info s e ;; PDFDocument_save newPdf.

Definition pdfDownload (file : string) (pdfBytes : ArrayBuffer) : Download :=
  {| download := file;
     href := {| blob_parts := pdfBytes; blob_type := "application/pdf" |} |}.

Definition corruptInfo : PdfInfo :=
  {| name := "doc.pdf"; pageCount := 10; size := "1 B";
     data := [Byte.x00]; url := None |}.

(** A name in which no dot occurs. *)
Fixpoint noDot (s : string) : bool :=
  match s with
  | EmptyString => true
  | String c s' => negb (Ascii.eqb c ".") && noDot s'
  end.

Definition signedInfo : PdfInfo :=
  {| name := "report.pdf.signed.pdf"; pageCount := 10; size := "11 B";
     data := tenPages; url := None |}.

Definition fileA : File := pdfFile "a.pdf" tenPages.

Definition fileB : File := pdfFile "b.pdf" tenPages.

Definition zeroPageInfo : PdfInfo :=
  {| name := "empty.pdf"; pageCount := 0; size := "1 B";
     data := [Byte.x25]; url := None |}.

Definition readySys (info : PdfInfo) (s e : Z) : Sys :=
  {| ui := readyState info s e; world := initialWorld; inflight := [] |}.

(** * Properties *)

(** ** Lists, indices and the copy loop *)

Section ListFacts.
Context {A : Type}.

Lemma at_index_nat (l : list A) (i : Z) :
  0 <= i -> at_index l i = nth_error l (Z.to_nat i).
Proof.
  intros Hi. unfold at_index.
  destruct (i <? 0) eqn:E; [apply Z.ltb_lt in E; lia | reflexivity].
Qed.

Lemma nth_error_slice (l : list A) (a n k : nat) :
  (k < n)%nat -> nth_error (firstn n (skipn a l)) k = nth_error l (a + k).
Proof.
  intros Hk. rewrite nth_error_firstn.
  destruct (Nat.ltb k n) eqn:E.
  - apply nth_error_skipn.
  - apply Nat.ltb_ge in E. lia.
Qed.

Lemma slice_step (l : list A) (a n : nat) (x : A) :
  nth_error l a = Some x ->
  firstn (S n) (skipn a l) = x :: firstn n (skipn (S a) l).
Proof.
  revert l. induction a as [|a IH]; intros l H.
  - destruct l as [|y l]; simpl in *; [discriminate | congruence].
  - destruct l as [|y l]; simpl in H; [discriminate |].
    change (skipn (S a) (y :: l)) with (skipn a l).
    change (skipn (S (S a)) (y :: l)) with (skipn (S a) l).
    apply IH, H.
Qed.

Lemma slice_length (l : list A) (a n : nat) :
  (a + n <= List.length l)%nat -> List.length (firstn n (skipn a l)) = n.
Proof.
  intros H. rewrite firstn_length_le; [reflexivity |].
  rewrite length_skipn. lia.
Qed.

End ListFacts.

Lemma seq_from (i : Z) (a n : nat) :
  map (fun k => i + Z.of_nat k) (seq (S a) n)
  = map (fun k => i + 1 + Z.of_nat k) (seq a n).
Proof.
  rewrite <- seq_shift, map_map. apply map_ext. intros k. lia.
Qed.

(** The loop stops by its own test: any fuel from [end_ - i + 1] on gives the
    whole range. *)
Lemma pushIndices_run (fuel : nat) (i end_ : Z) (acc : list Z) :
  (Z.to_nat (end_ - i + 1) <= fuel)%nat ->
  pushIndices fuel i end_ acc
  = acc ++ map (fun k => i + Z.of_nat k) (seq 0 (Z.to_nat (end_ - i + 1))).
Proof.
  revert i acc. induction fuel as [|fuel IH]; intros i acc Hf.
  - replace (Z.to_nat (end_ - i + 1)) with 0%nat by lia.
    simpl. now rewrite app_nil_r.
  - cbn [pushIndices].
    destruct (i <=? end_) eqn:E.
    + apply Z.leb_le in E. rewrite IH by lia.
      replace (Z.to_nat (end_ - i + 1)) with (S (Z.to_nat (end_ - (i + 1) + 1))) by lia.
      rewrite <- app_assoc. f_equal.
      cbn [seq map app]. rewrite Z.add_0_r. f_equal. apply eq_sym, seq_from.
    + apply Z.leb_gt in E.
      replace (Z.to_nat (end_ - i + 1)) with 0%nat by lia.
      simpl. now rewrite app_nil_r.
Qed.

Lemma pageIndicesOf_range (s e : Z) :
  pageIndicesOf (s - 1) (e - 1) = zeroIndexedRange s e.
Proof.
  unfold pageIndicesOf, zeroIndexedRange.
  rewrite pushIndices_run by lia.
  replace (e - 1 - (s - 1) + 1) with (e - s + 1) by lia.
  reflexivity.
Qed.

Lemma zeroIndexedRange_sorted (s e : Z) :
  StronglySorted Z.lt (zeroIndexedRange s e).
Proof.
  unfold zeroIndexedRange.
  generalize (Z.to_nat (e - s + 1)) as n. generalize (s - 1) as i.
  intros i n. revert i. induction n as [|n IH]; intros i.
  - constructor.
  - cbn [seq map]. rewrite seq_from. constructor.
    + apply IH.
    + apply Forall_forall. intros x Hx.
      apply in_map_iff in Hx. destruct Hx as [k [<- _]]. lia.
Qed.

Section CopyFacts.
Context {L : PdfLib}.

Lemma copyPages_range (src : PDFDocument) (n : nat) (i : Z) :
  0 <= i -> i + Z.of_nat n <= getPageCount src ->
  copyPages src (map (fun k => i + Z.of_nat k) (seq 0 n))
  = Some (firstn n (skipn (Z.to_nat i) src)).
Proof.
  unfold getPageCount.
  revert i. induction n as [|n IH]; intros i Hi Hn.
  - reflexivity.
  - cbn [seq map]. rewrite seq_from. cbn [copyPages].
    rewrite Z.add_0_r, at_index_nat by assumption.
    destruct (nth_error src (Z.to_nat i)) as [x|] eqn:Ex.
    + cbn [bind_opt]. rewrite IH by lia. cbn [bind_opt].
      rewrite (slice_step _ _ _ _ Ex).
      replace (Z.to_nat (i + 1)) with (S (Z.to_nat i)) by lia.
      reflexivity.
    + apply nth_error_None in Ex. lia.
Qed.

Lemma addPage_all (pages doc : PDFDocument) :
  fold_left addPage pages doc = doc ++ pages.
Proof.
  revert doc. induction pages as [|p pages IH]; intros doc; simpl.
  - now rewrite app_nil_r.
  - rewrite IH. unfold addPage. now rewrite <- app_assoc.
Qed.

End CopyFacts.

(** ** Extraction *)

Section ExtractFacts.
Context {L : PdfLib}.

Lemma extractPages_try_outcome (info : PdfInfo) (s e : Z) (w : World) :
  match extractedBytes info s e with
  | Some pdfBytes =>
      exists w', extractPages_try info s e w = Some w'
        /\ downloads w' = downloads w ++ [pdfDownload (downloadName info s e) pdfBytes]
  | None => extractPages_try info s e w = None
  end.
Proof.
  unfold extractedBytes, extractPages_try.
  destruct (extractPages_newPdf info s e) as [doc|]; cbn [bind_opt]; [|reflexivity].
  destruct (PDFDocument_save doc) as [pdfBytes|]; cbn [bind_opt]; [|reflexivity].
  eexists. split; [reflexivity |].
  unfold link_click, URL_createObjectURL, URL_revokeObjectURL.
  cbn [objectURLs resolveURL]. rewrite Nat.eqb_refl. reflexivity.
Qed.

Lemma extractPages_newPdf_range (info : PdfInfo) (src : PDFDocument) (s e : Z) :
  PDFDocument_load (data info) = Some src ->
  1 <= s -> s <= e -> e <= getPageCount src ->
  extractPages_newPdf info s e
  = Some (firstn (Z.to_nat (e - s + 1)) (skipn (Z.to_nat (s - 1)) src)).
Proof.
  intros Hload Hs Hse He. unfold extractPages_newPdf.
  rewrite Hload. cbn [bind_opt].
  rewrite pageIndicesOf_range. unfold zeroIndexedRange.
  rewrite copyPages_range by lia. cbn [bind_opt].
  now rewrite addPage_all.
Qed.

End ExtractFacts.

Lemma isValidRange_iff (st : State) (info : PdfInfo) :
  pdfInfo st = Some info ->
  (isValidRange st = true
   <-> startPage st >= 1 /\ endPage st >= startPage st /\ endPage st <= pageCount info).
Proof.
  intros H. unfold isValidRange. rewrite H.
  rewrite !andb_true_iff, !Z.geb_le, Z.leb_le. lia.
Qed.

(** C1. For a loaded document (its bytes open to [src], whose page count is
    the recorded one) and a valid range [[s, e]], extraction builds the index
    list [[s-1; ...; e-1]], which is increasing; copying those indices from
    the source and appending them to the new empty document gives the pages
    [s..e] of the source in their order: the output has [e - s + 1] pages and
    its page [k - s] is source page [k - 1] for every [s <= k <= e]; and the
    bytes offered for download are the serialization of that document. *)
Theorem extractPages_copies_range {L : PdfLib} (v : Variant) (st : State) (w : World)
        (info : PdfInfo) (src : PDFDocument) :
  pdfInfo st = Some info ->
  PDFDocument_load (data info) = Some src ->
  pageCount info = getPageCount src ->
  isValidRange st = true ->
  let s := startPage st in
  let e := endPage st in
  let out := firstn (Z.to_nat (e - s + 1)) (skipn (Z.to_nat (s - 1)) src) in
  pageIndicesOf (s - 1) (e - 1) = zeroIndexedRange s e
  /\ StronglySorted Z.lt (pageIndicesOf (s - 1) (e - 1))
  /\ copyPages src (pageIndicesOf (s - 1) (e - 1)) = Some out
  /\ extractPages_newPdf info s e = Some (fold_left addPage out PDFDocument_create)
  /\ fold_left addPage out PDFDocument_create = out
  /\ getPageCount out = e - s + 1
  /\ (forall k, s <= k <= e ->
        at_index out (k - s) = at_index src (k - 1) /\ at_index src (k - 1) <> None)
  /\ (forall pdfBytes, PDFDocument_save out = Some pdfBytes ->
        downloads (snd (extractPages v st w))
        = downloads w ++ [pdfDownload (downloadName info s e) pdfBytes]).
Proof.
  intros Hinfo Hload Hcount Hvalid s e out.
  apply (isValidRange_iff st info Hinfo) in Hvalid.
  fold s e in Hvalid. destruct Hvalid as (Hs & Hse & He).
  rewrite Hcount in He.
  assert (Hnew : extractPages_newPdf info s e = Some out)
    by (apply extractPages_newPdf_range; assumption || lia).
  assert (Hfold : fold_left addPage out PDFDocument_create = out)
    by (rewrite addPage_all; reflexivity).
  assert (Hlen : getPageCount out = e - s + 1).
  { unfold getPageCount, out. rewrite slice_length; [lia |].
    unfold getPageCount in He. lia. }
  repeat split.
  - apply pageIndicesOf_range.
  - rewrite pageIndicesOf_range. apply zeroIndexedRange_sorted.
  - rewrite pageIndicesOf_range. unfold zeroIndexedRange.
    rewrite copyPages_range by lia. reflexivity.
  - now rewrite Hfold.
  - exact Hfold.
  - exact Hlen.
  - rewrite !at_index_nat by lia. unfold out.
    rewrite nth_error_slice by lia. f_equal. lia.
  - rewrite at_index_nat by lia. apply nth_error_Some.
    unfold getPageCount in He. lia.
  - intros pdfBytes Hsave.
    unfold extractPages, extractPages_begin. rewrite Hinfo.
    cbn [settleNow resume]. unfold extractPages_end. fold s e.
    pose proof (extractPages_try_outcome info s e w) as Hout.
    unfold extractedBytes in Hout. rewrite Hnew in Hout. cbn [bind_opt] in Hout.
    rewrite Hsave in Hout. destruct Hout as (w' & -> & Hd). exact Hd.
Qed.

(** The example of the specification: ten pages, range [[3, 5]]. *)
Lemma extractPages_copies_range_witness :
  isValidRange (readyState tenPageInfo 3 5) = true
  /\ @extractPages_newPdf byteLib tenPageInfo 3 5 = Some [Byte.x32; Byte.x33; Byte.x34]
  /\ downloads (snd (@extractPages byteLib VSerif (readyState tenPageInfo 3 5) initialWorld))
     = [@pdfDownload "doc_pages_3-5.pdf" [Byte.x25; Byte.x32; Byte.x33; Byte.x34]].
Proof.
  pose proof (@extractPages_copies_range byteLib VSerif (readyState tenPageInfo 3 5)
                initialWorld tenPageInfo (tl tenPages)
                eq_refl eq_refl eq_refl eq_refl) as H.
  cbv zeta in H.
  destruct H as (_ & _ & _ & Hnew & _ & _ & _ & Hdl).
  split; [reflexivity |]. split.
  - exact Hnew.
  - exact (Hdl _ eq_refl).
Defined.

(** ** Range validation *)

Lemma clamp_bounds (val n : Z) :
  1 <= clamp val n /\ (1 <= n -> clamp val n <= n)
  /\ (1 <= val <= n -> clamp val n = val).
Proof.
  unfold clamp, JS.Math_max, JS.Math_min. lia.
Qed.

(** C2, as the code has it.  With a loaded document of [pageCount] pages, a
    typed bound is stored as [max 1 (min m pageCount)], [m] the number
    [parseInt] reads from the text, and as 1 when the text holds no number:
    below 1 it is raised to 1, inside [[1, pageCount]] it is kept, above
    [pageCount] it is lowered to [pageCount]; so it lies in
    [[1, pageCount]] when [pageCount >= 1], and is 1 when the document has no
    page.  Nothing but the bound is changed.  The range is declared valid iff
    [startPage >= 1], [endPage >= startPage] and [endPage <= pageCount]; when
    valid the displayed count is [endPage - startPage + 1]; when invalid the
    extract button is disabled and a press on it is not accepted. *)
Theorem range_validator {L : PdfLib} (v : Variant) (s : Sys) (info : PdfInfo)
        (value : string) :
  pdfInfo (ui s) = Some info ->
  let st := ui s in
  let n := pageCount info in
  let stored :=
    match JS.parseInt value with
    | Some m => Z.max 1 (Z.min m n)
    | None => 1
    end in
  onChangeStart info value st = setStartPage stored st
  /\ onChangeEnd info value st = setEndPage stored st
  /\ (forall m, JS.parseInt value = Some m ->
        (m < 1 -> stored = 1)
        /\ (1 <= m <= n -> stored = m)
        /\ (n < m -> 1 <= n -> stored = n))
  /\ (JS.parseInt value = None -> stored = 1)
  /\ 1 <= stored
  /\ (1 <= n -> stored <= n)
  /\ (n < 1 -> stored = 1)
  /\ step v (TypedStart value) s = Some (withUi s (onChangeStart info value st))
  /\ step v (TypedEnd value) s = Some (withUi s (onChangeEnd info value st))
  /\ (isValidRange st = true
      <-> startPage st >= 1 /\ endPage st >= startPage st
          /\ endPage st <= pageCount info)
  /\ (isValidRange st = true -> selectedPageCount st = endPage st - startPage st + 1)
  /\ (isValidRange st = false ->
        extractDisabled st = true /\ step v PressExtract s = None).
Proof.
  intros Hinfo st n stored.
  assert (Hst : clamp (JS.orElse (JS.parseInt value) 1) n = stored).
  { unfold stored, clamp, JS.Math_max, JS.Math_min.
    destruct (JS.parseInt value) as [m|]; cbn [JS.orElse]; [| lia].
    destruct m; lia. }
  split; [unfold onChangeStart; fold n; now rewrite Hst |].
  split; [unfold onChangeEnd; fold n; now rewrite Hst |].
  split.
  { intros m Hm. unfold stored. rewrite Hm. lia. }
  split.
  { intros Hnone. unfold stored. now rewrite Hnone. }
  split; [unfold stored; destruct (JS.parseInt value); lia |].
  split; [unfold stored; destruct (JS.parseInt value); lia |].
  split; [unfold stored; destruct (JS.parseInt value); lia |].
  split; [unfold step; now rewrite Hinfo |].
  split; [unfold step; now rewrite Hinfo |].
  split; [apply (isValidRange_iff st info Hinfo) |].
  split.
  - unfold selectedPageCount. now intros ->.
  - intros Hinv. unfold step. rewrite Hinfo. fold st.
    unfold extractDisabled. rewrite Hinv. now split.
Qed.

Lemma range_validator_witness :
  pdfInfo (ui (readySys tenPageInfo 7 4)) = Some tenPageInfo
  /\ onChangeStart tenPageInfo "250" (ui (readySys tenPageInfo 7 4))
     = readyState tenPageInfo 10 4
  /\ @step byteLib VPreview PressExtract (readySys tenPageInfo 7 4) = None.
Proof.
  pose proof (@range_validator byteLib VPreview (readySys tenPageInfo 7 4)
                tenPageInfo "250" eq_refl) as H.
  cbv zeta in H.
  destruct H as (Hstart & _ & _ & _ & _ & _ & _ & _ & _ & _ & _ & Hdis).
  split; [reflexivity |]. split.
  - rewrite Hstart. reflexivity.
  - apply Hdis. reflexivity.
Defined.

(** C2 as worded fails on a document without pages, which [loadPdf] accepts:
    the range starts as [[1, 0]], and a bound typed as 5 is stored as 1, which
    is not in [[1, pageCount]] (there is no such number). *)
Lemma typed_bound_outside_empty_document :
  fst (@loadPdf byteLib VSerif (pdfFile "empty.pdf" [Byte.x25]) initialState initialWorld)
  = readyState zeroPageInfo 1 0
  /\ endPage (onChangeEnd zeroPageInfo "5" (readyState zeroPageInfo 1 0)) = 1
  /\ ~ (1 <= endPage (onChangeEnd zeroPageInfo "5" (readyState zeroPageInfo 1 0))
        <= pageCount zeroPageInfo).
Proof.
  split; [reflexivity |]. split; [reflexivity |].
  cbn. lia.
Qed.

(** ** Loading *)

Lemma loadPdf_try_outcome {L : PdfLib} (v : Variant) (file : File) (w : World) :
  match openFile file with
  | Some (buf, pdf) =>
      exists u w', loadPdf_try v file w
        = Some ({| name := file_name file; pageCount := getPageCount pdf;
                   size := formatFileSize (file_size file);
                   data := buf; url := u |}, w')
        /\ downloads w' = downloads w
        /\ (v <> VPreview -> u = None /\ w' = w)
  | None => loadPdf_try v file w = None
  end.
Proof.
  unfold openFile, loadPdf_try.
  destruct (file_arrayBuffer file) as [buf|]; cbn [bind_opt]; [|reflexivity].
  destruct (PDFDocument_load buf) as [pdf|]; cbn [bind_opt]; [|reflexivity].
  destruct v; cbn; eexists; eexists; (split; [reflexivity |]);
    (split; [reflexivity |]); intros Hv; (contradiction || (split; reflexivity)).
Qed.

(** C3. [loadPdf] on a file that opens replaces [pdfInfo] by a record built
    from the file alone (name, page count, size, bytes), sets the range to
    [[1, pageCount]] (a valid range when [pageCount >= 1]), and leaves no
    error; on a file whose read or open fails it sets the load error message,
    sets [pdfInfo] to [null], clears the processing flag it had raised, and
    leaves [startPage], [endPage], [isDragging] and the browser as they
    were. *)
Theorem loadPdf_outcome {L : PdfLib} (v : Variant) (file : File) (st : State) (w : World) :
  match openFile file with
  | Some (buf, pdf) =>
      (exists u,
         pdfInfo (fst (loadPdf v file st w))
         = Some {| name := file_name file; pageCount := getPageCount pdf;
                   size := formatFileSize (file_size file);
                   data := buf; url := u |})
      /\ startPage (fst (loadPdf v file st w)) = 1
      /\ endPage (fst (loadPdf v file st w)) = getPageCount pdf
      /\ (1 <= getPageCount pdf -> isValidRange (fst (loadPdf v file st w)) = true)
      /\ error (fst (loadPdf v file st w)) = None
      /\ isProcessing (fst (loadPdf v file st w)) = false
      /\ isDragging (fst (loadPdf v file st w)) = isDragging st
  | None =>
      loadPdf v file st w
      = ({| pdfInfo := None; startPage := startPage st; endPage := endPage st;
            isDragging := isDragging st; isProcessing := false;
            error := Some (msgLoadFailed v) |}, w)
  end.
Proof.
  pose proof (loadPdf_try_outcome v file w) as H.
  unfold loadPdf. cbn [settleNow resume]. unfold loadPdf_end.
  destruct (openFile file) as [[buf pdf]|].
  - destruct H as (u & w' & -> & _ & _). cbn.
    repeat split; try reflexivity.
    + now exists u.
    + intros Hn. rewrite andb_true_iff, Z.geb_le, Z.leb_le. lia.
  - rewrite H. reflexivity.
Qed.

Example loadPdf_opens_ten_pages :
  fst (@loadPdf byteLib VSerif (pdfFile "doc.pdf" tenPages) initialState initialWorld)
  = readyState tenPageInfo 1 10.
Proof. reflexivity. Qed.

Example loadPdf_rejects_corrupt_bytes :
  @loadPdf byteLib VSerif (pdfFile "doc.pdf" [Byte.x00]) (readyState tenPageInfo 3 5)
    initialWorld
  = ({| pdfInfo := None; startPage := 3; endPage := 5; isDragging := false;
        isProcessing := false;
        error := Some "Unable to read this file. Please ensure it's a valid PDF." |},
     initialWorld).
Proof. reflexivity. Qed.

(** ** Failure of an extraction *)

(** C4. An extraction attempt (a document is loaded) triggers a download
    exactly when the source opens, the copy succeeds and the serialization
    succeeds, and the download then carries the serialized bytes.  When the
    open, the copy or the serialization fails, nothing is downloaded and the
    browser is as before, the extraction error message is set, and in every
    case the loaded document and the range are unchanged and the processing
    flag is cleared again. *)
Theorem extractPages_download_after_save {L : PdfLib} (v : Variant) (st : State)
        (w : World) (info : PdfInfo) :
  pdfInfo st = Some info ->
  let s := startPage st in
  let e := endPage st in
  let st' := fst (extractPages v st w) in
  let w' := snd (extractPages v st w) in
  let failed := w' = w /\ error st' = Some (msgExtractFailed v) in
  pdfInfo st' = Some info /\ startPage st' = s /\ endPage st' = e
  /\ isDragging st' = isDragging st /\ isProcessing st' = false
  /\ (PDFDocument_load (data info) = None -> failed)
  /\ (forall src,
        PDFDocument_load (data info) = Some src ->
        copyPages src (pageIndicesOf (s - 1) (e - 1)) = None -> failed)
  /\ (forall src pages,
        PDFDocument_load (data info) = Some src ->
        copyPages src (pageIndicesOf (s - 1) (e - 1)) = Some pages ->
        PDFDocument_save (fold_left addPage pages PDFDocument_create) = None -> failed)
  /\ (forall src pages pdfBytes,
        PDFDocument_load (data info) = Some src ->
        copyPages src (pageIndicesOf (s - 1) (e - 1)) = Some pages ->
        PDFDocument_save (fold_left addPage pages PDFDocument_create) = Some pdfBytes ->
        downloads w' = downloads w ++ [pdfDownload (downloadName info s e) pdfBytes]
        /\ error st' = None)
  /\ (downloads w' <> downloads w -> exists pdfBytes, extractedBytes info s e = Some pdfBytes).
Proof.
  intros Hinfo s e st' w' failed.
  pose proof (extractPages_try_outcome info s e w) as Hout.
  assert (Hrun : extractPages v st w
                 = extractPages_end v info s e (setIsProcessing true (setError None st)) w).
  { unfold extractPages, extractPages_begin. now rewrite Hinfo. }
  assert (Hfail : extractedBytes info s e = None -> failed).
  { intros Hb. rewrite Hb in Hout. unfold failed, st', w'.
    rewrite Hrun. unfold extractPages_end. rewrite Hout. now split. }
  assert (Hfields : pdfInfo st' = Some info /\ startPage st' = s /\ endPage st' = e
                    /\ isDragging st' = isDragging st /\ isProcessing st' = false).
  { unfold st'. rewrite Hrun. unfold extractPages_end.
    destruct (extractPages_try info s e _); cbn; now rewrite Hinfo. }
  destruct Hfields as (F1 & F2 & F3 & F4 & F5).
  do 5 (split; [assumption |]).
  split.
  { intros Hl. apply Hfail. unfold extractedBytes, extractPages_newPdf. now rewrite Hl. }
  split.
  { intros src Hl Hc. apply Hfail. unfold extractedBytes, extractPages_newPdf.
    rewrite Hl. cbn [bind_opt]. now rewrite Hc. }
  split.
  { intros src pages Hl Hc Hs. apply Hfail. unfold extractedBytes, extractPages_newPdf.
    rewrite Hl. cbn [bind_opt]. rewrite Hc. cbn [bind_opt]. exact Hs. }
  split.
  { intros src pages pdfBytes Hl Hc Hs.
    assert (Hb : extractedBytes info s e = Some pdfBytes).
    { unfold extractedBytes, extractPages_newPdf.
      rewrite Hl. cbn [bind_opt]. rewrite Hc. cbn [bind_opt]. exact Hs. }
    rewrite Hb in Hout. destruct Hout as (w1 & Htry & Hd).
    unfold st', w'. rewrite Hrun. unfold extractPages_end. rewrite Htry.
    split; [exact Hd | reflexivity]. }
  intros Hneq.
  destruct (extractedBytes info s e) as [pdfBytes|] eqn:Hb.
  - now exists pdfBytes.
  - destruct (Hfail eq_refl) as [Hw _]. rewrite Hw in Hneq. contradiction.
Qed.

Lemma extractPages_download_after_save_witness :
  pdfInfo (readyState corruptInfo 3 5) = Some corruptInfo
  /\ snd (@extractPages byteLib VSerif (readyState corruptInfo 3 5) initialWorld)
     = initialWorld
  /\ error (fst (@extractPages byteLib VSerif (readyState corruptInfo 3 5) initialWorld))
     = Some "Something went wrong. Please try again.".
Proof.
  pose proof (@extractPages_download_after_save byteLib VSerif
                (readyState corruptInfo 3 5) initialWorld corruptInfo eq_refl) as H.
  cbv zeta in H.
  destruct H as (_ & _ & _ & _ & _ & Hload & _).
  split; [reflexivity |]. exact (Hload eq_refl).
Defined.

(** ** Files that are not PDF *)

(** C5. A picked or dropped file whose declared type is not
    [application/pdf] is not loaded: the handler only sets its error message
    (and, for a drop, clears the drag flag), starts no load, and leaves
    [pdfInfo], the range and the browser as they were. *)
Theorem non_pdf_rejected {L : PdfLib} (v : Variant) (file : File) (st : State) (w : World) :
  file_type file <> "application/pdf" ->
  handleFileSelect v (Some file) st w = (setError (Some (msgSelectPdf v)) st, w)
  /\ handleDrop v (Some file) st w
     = (setError (Some (msgDropPdf v)) (setIsDragging false st), w)
  /\ snd (handleFileSelect_begin v (Some file) st) = None
  /\ snd (handleDrop_begin v (Some file) st) = None
  /\ pdfInfo (fst (handleFileSelect v (Some file) st w)) = pdfInfo st
  /\ pdfInfo (fst (handleDrop v (Some file) st w)) = pdfInfo st
  /\ error (fst (handleFileSelect v (Some file) st w)) = Some (msgSelectPdf v)
  /\ error (fst (handleDrop v (Some file) st w)) = Some (msgDropPdf v).
Proof.
  intros Htype. apply String.eqb_neq in Htype.
  unfold handleFileSelect, handleDrop, handleFileSelect_begin, handleDrop_begin.
  rewrite Htype. cbn. repeat split; reflexivity.
Qed.

Lemma non_pdf_rejected_witness :
  file_type textFile <> "application/pdf"
  /\ @handleFileSelect byteLib VPreview (Some textFile) (readyState tenPageInfo 3 5)
       initialWorld
     = ({| pdfInfo := Some tenPageInfo; startPage := 3; endPage := 5;
           isDragging := false; isProcessing := false;
           error := Some "Please select a PDF file." |}, initialWorld).
Proof.
  assert (Ht : file_type textFile <> "application/pdf") by (cbn; discriminate).
  split; [exact Ht |].
  exact (proj1 (@non_pdf_rejected byteLib VPreview textFile
                  (readyState tenPageInfo 3 5) initialWorld Ht)).
Defined.

(** ** Quick-select presets *)

Lemma Math_ceil_half (n : Z) :
  isCeilHalf n (JS.Math_ceil (inject_Z n / inject_Z 2)%Q).
Proof.
  assert (E : JS.Math_ceil (inject_Z n / inject_Z 2)%Q = - (- n / 2)).
  { unfold JS.Math_ceil, Qceiling, Qfloor. cbn. now rewrite Z.mul_1_r. }
  rewrite E. unfold isCeilHalf.
  pose proof (Z.div_mod (- n) 2) as Hd.
  pose proof (Z.mod_pos_bound (- n) 2) as Hm.
  lia.
Qed.

Lemma isCeilHalf_unique (n e e' : Z) : isCeilHalf n e -> isCeilHalf n e' -> e = e'.
Proof. unfold isCeilHalf. lia. Qed.

(** C7. With a loaded document of [pageCount] pages, the presets are
    accepted and set the range, and nothing else: All pages gives
    [[1, pageCount]], First gives [[1, 1]], Last gives
    [[pageCount, pageCount]], and First half, when the button is offered,
    gives [[1, c]] where [c] is the ceiling of [pageCount / 2]. *)
Theorem quick_select_presets {L : PdfLib} (v : Variant) (s : Sys) (info : PdfInfo) :
  pdfInfo (ui s) = Some info ->
  let st := ui s in
  let n := pageCount info in
  step v PressAll s = Some (withUi s (setEndPage n (setStartPage 1 st)))
  /\ step v PressFirst s = Some (withUi s (setEndPage 1 (setStartPage 1 st)))
  /\ step v PressLast s = Some (withUi s (setEndPage n (setStartPage n st)))
  /\ (firstHalfOffered v info = true ->
      exists c, isCeilHalf n c
        /\ step v PressFirstHalf s = Some (withUi s (setEndPage c (setStartPage 1 st))))
  /\ (startPage (clickAll info st) = 1 /\ endPage (clickAll info st) = n)
  /\ (startPage (clickFirst st) = 1 /\ endPage (clickFirst st) = 1)
  /\ (startPage (clickLast info st) = n /\ endPage (clickLast info st) = n)
  /\ (startPage (clickFirstHalf info st) = 1
      /\ isCeilHalf n (endPage (clickFirstHalf info st))).
Proof.
  intros Hinfo st n. unfold step. rewrite Hinfo. fold st.
  split; [reflexivity |]. split; [reflexivity |]. split; [reflexivity |].
  split.
  { intros ->. eexists. split; [apply Math_ceil_half | reflexivity]. }
  repeat split; try reflexivity; apply Math_ceil_half.
Qed.

Lemma quick_select_presets_witness :
  pdfInfo (ui (readySys tenPageInfo 3 5)) = Some tenPageInfo
  /\ @step byteLib VSerif PressLast (readySys tenPageInfo 3 5)
     = Some (readySys tenPageInfo 10 10)
  /\ @step byteLib VSerif PressFirstHalf (readySys tenPageInfo 3 5)
     = Some (readySys tenPageInfo 1 5).
Proof.
  pose proof (@quick_select_presets byteLib VSerif (readySys tenPageInfo 3 5)
                tenPageInfo eq_refl) as H.
  cbv zeta in H. destruct H as (_ & _ & Hlast & Hhalf & _).
  split; [reflexivity |]. split; [exact Hlast |].
  destruct (Hhalf eq_refl) as (c & Hc & Hstep).
  rewrite Hstep.
  assert (Ec : c = 5) by (unfold isCeilHalf, tenPageInfo in Hc; cbn [pageCount] in Hc; lia).
  rewrite Ec. reflexivity.
Defined.

(** C9. The first-half button is rendered when [pageCount > 2] in the
    preview variant and in the second variant, and when [pageCount > 1] in
    the third; the conditions differ exactly on two-page documents.  Where
    two variants both offer the button, pressing it has the same effect in
    both: the range becomes [[1, c]], [c] the ceiling of [pageCount / 2]. *)
Theorem firstHalf_threshold_differs {L : PdfLib} :
  (forall info, firstHalfOffered VPreview info = (pageCount info >? 2))
  /\ (forall info, firstHalfOffered VSerif info = (pageCount info >? 2))
  /\ (forall info, firstHalfOffered VIndigo info = (pageCount info >? 1))
  /\ (forall info,
        firstHalfOffered VIndigo info <> firstHalfOffered VSerif info
        <-> pageCount info = 2)
  /\ (forall info,
        firstHalfOffered VIndigo info <> firstHalfOffered VPreview info
        <-> pageCount info = 2)
  /\ (forall v1 v2 s,
        step v1 PressFirstHalf s <> None -> step v2 PressFirstHalf s <> None ->
        step v1 PressFirstHalf s = step v2 PressFirstHalf s
        /\ exists info st' c,
             pdfInfo (ui s) = Some info
             /\ step v1 PressFirstHalf s = Some (withUi s st')
             /\ startPage st' = 1 /\ endPage st' = c
             /\ isCeilHalf (pageCount info) c).
Proof.
  split; [reflexivity |]. split; [reflexivity |]. split; [reflexivity |].
  assert (Hdiff : forall n, (n >? 1) <> (n >? 2) <-> n = 2).
  { intros n. destruct (n >? 1) eqn:E1, (n >? 2) eqn:E2;
      rewrite Z.gtb_ltb in E1, E2;
      (apply Z.ltb_lt in E1 || apply Z.ltb_ge in E1);
      (apply Z.ltb_lt in E2 || apply Z.ltb_ge in E2);
      split; intros H; try lia; try congruence. }
  split; [intros info; apply Hdiff |]. split; [intros info; apply Hdiff |].
  intros v1 v2 s. unfold step.
  destruct (pdfInfo (ui s)) as [info|]; [| intros H; contradiction].
  destruct (firstHalfOffered v1 info); [| intros H; contradiction].
  destruct (firstHalfOffered v2 info); [| intros _ H; contradiction].
  intros _ _. split; [reflexivity |].
  exists info. eexists. eexists.
  split; [reflexivity |]. split; [reflexivity |]. split; [reflexivity |].
  split; [reflexivity |]. apply Math_ceil_half.
Qed.

Example firstHalf_two_pages :
  firstHalfOffered VIndigo {| name := "two.pdf"; pageCount := 2; size := "3 B";
                              data := [Byte.x25; Byte.x30; Byte.x31]; url := None |}
  = true
  /\ firstHalfOffered VSerif {| name := "two.pdf"; pageCount := 2; size := "3 B";
                                data := [Byte.x25; Byte.x30; Byte.x31]; url := None |}
     = false.
Proof. split; reflexivity. Qed.

(** ** Thumbnails of the preview variant *)

Lemma pageNumbers_In (st : State) (p : Z) :
  In p (pageNumbers st)
  <-> exists info, pdfInfo st = Some info /\ 1 <= p <= pageCount info.
Proof.
  unfold pageNumbers. destruct (pdfInfo st) as [info|].
  - rewrite in_map_iff. split.
    + intros (i & <- & Hi). apply in_seq in Hi. exists info. split; [reflexivity | lia].
    + intros (info' & [= <-] & Hp). exists (Z.to_nat (p - 1)).
      split; [lia | apply in_seq; lia].
  - split; [intros [] | intros (info & [=] & _)].
Qed.

(** C10. In the preview variant a click on the thumbnail of a page [p] of the
    loaded document is accepted and sets [startPage] and [endPage] to [p];
    [p] lies in [[1, pageCount]], so the resulting range is valid and counts
    one page. *)
Theorem clickThumb_single_page {L : PdfLib} (s : Sys) (p : Z) :
  In p (pageNumbers (ui s)) ->
  let st' := clickThumb p (ui s) in
  step VPreview (PressThumb p) s = Some (withUi s st')
  /\ startPage st' = p /\ endPage st' = p
  /\ (exists info, pdfInfo st' = Some info /\ 1 <= p <= pageCount info)
  /\ isValidRange st' = true
  /\ selectedPageCount st' = 1.
Proof.
  intros Hin st'.
  pose proof Hin as Hp. apply pageNumbers_In in Hp. destruct Hp as (info & Hinfo & Hp).
  assert (Hv : isValidRange st' = true).
  { apply (isValidRange_iff st' info); [exact Hinfo | cbn; lia]. }
  split.
  { unfold step. rewrite Hinfo.
    replace (existsb (Z.eqb p) (pageNumbers (ui s))) with true; [reflexivity |].
    symmetry. apply existsb_exists. exists p. split; [exact Hin | apply Z.eqb_refl]. }
  split; [reflexivity |]. split; [reflexivity |].
  split; [exists info; split; [exact Hinfo | exact Hp] |].
  split; [exact Hv |].
  unfold selectedPageCount. rewrite Hv. cbn. lia.
Qed.

Lemma clickThumb_single_page_witness :
  In 7 (pageNumbers (ui (readySys tenPageInfo 3 5)))
  /\ @step byteLib VPreview (PressThumb 7) (readySys tenPageInfo 3 5)
     = Some (readySys tenPageInfo 7 7).
Proof.
  assert (Hin : In 7 (pageNumbers (ui (readySys tenPageInfo 3 5)))).
  { apply pageNumbers_In. exists tenPageInfo. split; [reflexivity | cbn; lia]. }
  split; [exact Hin |].
  exact (proj1 (@clickThumb_single_page byteLib (readySys tenPageInfo 3 5) 7 Hin)).
Defined.

(** ** Calls in flight *)

Lemma extract_gated {L : PdfLib} (v : Variant) (s : Sys) :
  isProcessing (ui s) = true -> step v PressExtract s = None.
Proof.
  intros Hp. unfold step, extractDisabled. rewrite Hp, orb_true_r.
  now destruct (pdfInfo (ui s)).
Qed.

Lemma load_not_gated {L : PdfLib} (v : Variant) (s : Sys) (file : File) :
  pdfInfo (ui s) = None ->
  file_type file = "application/pdf" ->
  (exists s', step v (FileDropped (Some file)) s = Some s'
     /\ inflight s' = inflight s ++ [LoadPdfTask file]
     /\ isProcessing (ui s') = true)
  /\ (exists s', step v (FilePicked (Some file)) s = Some s'
     /\ inflight s' = inflight s ++ [LoadPdfTask file]
     /\ isProcessing (ui s') = true).
Proof.
  intros Hnone Htype. unfold step. rewrite Hnone.
  unfold handleDrop_begin, handleFileSelect_begin. rewrite Htype. cbn.
  split; eexists; (split; [reflexivity |]); split; reflexivity.
Qed.

(** C8, at the input where the code departs from it.  A PDF dropped on the
    empty page starts a load and raises [isProcessing]; a second file, dropped
    or picked while that load is still in flight, is accepted all the same,
    and two loads are in flight. *)
Theorem second_load_while_processing {L : PdfLib} (v : Variant) :
  exists s1 s2 s2',
    step v (FileDropped (Some fileA)) initialSys = Some s1
    /\ isProcessing (ui s1) = true
    /\ loadsInFlight s1 = 1%nat
    /\ step v (FileDropped (Some fileB)) s1 = Some s2
    /\ inflight s2 = [LoadPdfTask fileA; LoadPdfTask fileB]
    /\ loadsInFlight s2 = 2%nat
    /\ step v (FilePicked (Some fileB)) s1 = Some s2'
    /\ loadsInFlight s2' = 2%nat.
Proof.
  do 3 eexists.
  split; [reflexivity |]. split; [reflexivity |]. split; [reflexivity |].
  split; [reflexivity |]. split; [reflexivity |]. split; [reflexivity |].
  split; reflexivity.
Qed.

(** The same gap lets a late load clear the flag under a running extraction:
    the extract button is enabled again and a second extraction starts. *)
Example second_extract_after_late_load :
  exists s,
    @run byteLib VSerif
      [FileDropped (Some fileA); FileDropped (Some fileB); Settled 0%nat;
       PressExtract; Settled 0%nat; PressExtract] initialSys = Some s
    /\ extractsInFlight s = 2%nat.
Proof. eexists. split; reflexivity. Qed.

(** ** The name of the downloaded file *)

Lemma String_replace_extension (base : string) :
  noDot base = true ->
  JS.String_replace (base ++ ".pdf")%string ".pdf" EmptyString = base.
Proof.
  induction base as [|c base IH]; intros Hnd.
  - reflexivity.
  - cbn [noDot] in Hnd. apply andb_true_iff in Hnd. destruct Hnd as [Hc Hnd].
    apply negb_true_iff in Hc.
    cbn [String.append JS.String_replace String.prefix].
    destruct (ascii_dec "." c) as [E|E].
    + subst c. rewrite Ascii.eqb_refl in Hc. discriminate.
    + now rewrite IH.
Qed.

Lemma withoutPdfExtension_extension (base : string) :
  withoutPdfExtension (base ++ ".pdf")%string = base.
Proof.
  unfold withoutPdfExtension.
  assert (He : endsWith ".pdf" (base ++ ".pdf")%string = true).
  { induction base as [|c base IH]; [reflexivity |].
    cbn [String.append endsWith]. rewrite IH. apply orb_true_r. }
  rewrite He. clear He.
  induction base as [|c base IH]; [reflexivity |].
  cbn [String.append String.length].
  replace (S (String.length (base ++ ".pdf")) - 4)%nat
    with (S (String.length (base ++ ".pdf") - 4))%nat.
  - cbn [String.substring]. now rewrite IH.
  - assert (4 <= String.length (base ++ ".pdf"))%nat.
    { clear IH. induction base; cbn [String.append String.length]; lia. }
    lia.
Qed.

(** Where the code and the specification agree: names whose only dot is the
    one of the extension. *)
Lemma downloadName_plain (info : PdfInfo) (base : string) (s e : Z) :
  name info = (base ++ ".pdf")%string -> noDot base = true ->
  downloadName info s e = specDownloadName (name info) s e.
Proof.
  intros Hname Hnd. unfold downloadName, specDownloadName.
  now rewrite Hname, String_replace_extension, withoutPdfExtension_extension.
Qed.

(** C6, at the input where the code departs from it.  For the source name
    [report.pdf.signed.pdf] and the range [[1, 1]] the downloaded file has
    MIME type [application/pdf] and is named
    [report.signed.pdf_pages_1-1.pdf]: [replace] removed the first [.pdf] of
    the name, not its extension, so the name is not the one the
    specification gives, [report.pdf.signed_pages_1-1.pdf]. *)
Theorem downloadName_first_occurrence :
  downloads (snd (@extractPages byteLib VSerif (readyState signedInfo 1 1) initialWorld))
  = [pdfDownload "report.signed.pdf_pages_1-1.pdf" [Byte.x25; Byte.x30]]
  /\ blob_type (href (pdfDownload "report.signed.pdf_pages_1-1.pdf" [Byte.x25; Byte.x30]))
     = "application/pdf"
  /\ downloadName signedInfo 1 1 = "report.signed.pdf_pages_1-1.pdf"
  /\ specDownloadName (name signedInfo) 1 1 = "report.pdf.signed_pages_1-1.pdf"
  /\ downloadName signedInfo 1 1 <> specDownloadName (name signedInfo) 1 1.
Proof.
  split; [reflexivity |]. split; [reflexivity |]. split; [reflexivity |].
  split; [reflexivity |]. discriminate.
Qed.

Example downloadName_of_the_specification :
  downloadName tenPageInfo 3 5 = "doc_pages_3-5.pdf"
  /\ specDownloadName (name tenPageInfo) 3 5 = "doc_pages_3-5.pdf".
Proof. split; reflexivity. Qed.

(** ** Reachable states hold loaded documents *)

Lemma In_removeNth {A : Type} (x : A) (k : nat) (l : list A) :
  In x (removeNth k l) -> In x l.
Proof.
  unfold removeNth. revert l. induction k as [|k IH]; intros l H.
  - destruct l; [exact H | right; exact H].
  - destruct l as [|y l]; [exact H |].
    cbn [firstn app] in H. change (skipn (S (S k)) (y :: l)) with (skipn (S k) l) in H.
    destruct H as [H|H]; [left; exact H | right; apply IH, H].
Qed.

Section Reachable.
Context {L : PdfLib}.
Variable v : Variant.

Lemma loadPdf_try_loaded (file : File) (w w' : World) (info : PdfInfo) :
loadPdf_try v file w = Some (info, w') -> loadedInfo info.
Proof.
unfold loadPdf_try.
destruct (file_arrayBuffer file) as [buf|]; cbn [bind_opt]; [|discriminate].
destruct (PDFDocument_load buf) as [pdf|] eqn:Hl; cbn [bind_opt]; [|discriminate].
destruct v; cbn; intros [= <- _]; exists pdf; split; assumption || reflexivity.
Qed.

Lemma resume_loaded (t : Task) (st : State) (w : World) :
(forall info, pdfInfo st = Some info -> loadedInfo info) ->
forall info, pdfInfo (fst (resume v t st w)) = Some info -> loadedInfo info.
Proof.
intros Hst info. destruct t as [file | info0 a b]; cbn [resume].
- unfold loadPdf_end.
  destruct (loadPdf_try v file w) as [[info1 w1]|] eqn:Ht; cbn.
  + intros [= <-]. eapply loadPdf_try_loaded, Ht.
  + discriminate.
- unfold extractPages_end.
  destruct (extractPages_try info0 a b w); cbn; apply Hst.
Qed.

Lemma spawn_loaded (s : Sys) (r : State * option Task) :
sysLoaded s ->
pdfInfo (fst r) = pdfInfo (ui s) ->
(forall info a b, snd r = Some (ExtractPagesTask info a b) -> loadedInfo info) ->
sysLoaded (spawn s r).
Proof.
intros [Hui Hfl] Hsame Hnew. split; cbn.
- intros info. rewrite Hsame. apply Hui.
- intros info a b Hin. apply in_app_or in Hin. destruct Hin as [Hin|Hin].
  + eapply Hfl, Hin.
  + destruct (snd r) as [t|] eqn:Et; [| destruct Hin].
    destruct Hin as [->|[]]. eapply Hnew. reflexivity.
Qed.

Lemma withUi_loaded (s : Sys) (st : State) :
sysLoaded s -> pdfInfo st = pdfInfo (ui s) -> sysLoaded (withUi s st).
Proof.
intros [Hui Hfl] Hsame. split; cbn.
- intros info. rewrite Hsame. apply Hui.
- exact Hfl.
Qed.

Lemma step_loaded (e : Event) (s s' : Sys) :
sysLoaded s -> step v e s = Some s' -> sysLoaded s'.
Proof.
intros Hs. pose proof Hs as [Hui Hfl].
assert (Hsettle : forall k, step v (Settled k) s = Some s' -> sysLoaded s').
{ intros k. cbn [step].
  destruct (nth_error (inflight s) k) as [t|] eqn:Hk; [|discriminate].
  destruct (resume v t (ui s) (world s)) as [st w] eqn:Hr.
  intros [= <-]. split; cbn.
  - intros info Hi. apply (resume_loaded t (ui s) (world s) Hui info).
    now rewrite Hr.
  - intros info a b Hin. eapply Hfl, In_removeNth, Hin. }
destruct e; try (apply Hsettle); unfold step;
  destruct (pdfInfo (ui s)) as [info|] eqn:Hinfo; try discriminate.
- (* FilePicked *)
  intros [= <-]. apply spawn_loaded; [exact Hs | | ].
  + unfold handleFileSelect_begin. destruct files0 as [file|]; [|reflexivity].
    destruct (String.eqb _ _); cbn; symmetry; exact Hinfo || (rewrite Hinfo; reflexivity).
  + unfold handleFileSelect_begin. intros info a b.
    destruct files0 as [file|]; [|discriminate].
    destruct (String.eqb _ _); discriminate.
- (* FileDropped *)
  intros [= <-]. apply spawn_loaded; [exact Hs | | ].
  + unfold handleDrop_begin. destruct files0 as [file|]; [|reflexivity].
    destruct (String.eqb _ _); reflexivity.
  + unfold handleDrop_begin. intros info a b.
    destruct files0 as [file|]; [|discriminate].
    destruct (String.eqb _ _); discriminate.
- intros [= <-]. now apply withUi_loaded.
- intros [= <-]. now apply withUi_loaded.
- intros [= <-]. now apply withUi_loaded.
- intros [= <-]. now apply withUi_loaded.
- intros [= <-]. now apply withUi_loaded.
- intros [= <-]. now apply withUi_loaded.
- intros [= <-]. now apply withUi_loaded.
- destruct (firstHalfOffered v info); [|discriminate].
  intros [= <-]. now apply withUi_loaded.
- destruct v; try discriminate.
  destruct (existsb _ _); [|discriminate].
  intros [= <-]. now apply withUi_loaded.
- (* PressRemove *)
  destruct (resetFile v (ui s) (world s)) as [st w] eqn:Hr.
  intros [= <-]. unfold resetFile in Hr. injection Hr as <- _.
  split; cbn; [discriminate | exact Hfl].
- (* PressExtract *)
  destruct (extractDisabled (ui s)); [discriminate |].
  intros [= <-]. unfold extractPages_begin. rewrite Hinfo.
  apply spawn_loaded; [exact Hs | reflexivity |].
  cbn. intros info0 a b [= <- _ _]. apply Hui. reflexivity.
Qed.

Lemma run_loaded (es : list Event) (s s' : Sys) :
sysLoaded s -> run v es s = Some s' -> sysLoaded s'.
Proof.
revert s. induction es as [|e es IH]; intros s Hs; cbn [run].
- now intros [= <-].
- destruct (step v e s) as [s1|] eqn:He; cbn [bind_opt]; [|discriminate].
  apply IH. eapply step_loaded; eassumption.
Qed.

Lemma reachable_loaded (es : list Event) (s : Sys) (info : PdfInfo) :
run v es initialSys = Some s -> pdfInfo (ui s) = Some info -> loadedInfo info.
Proof.
intros Hrun. apply (run_loaded es initialSys s); [| exact Hrun].
split; cbn; [discriminate | intros ? ? ? []].
Qed.

End Reachable.

(** * Further properties of the component *)

(** ** Typed page numbers: [parseInt] reads back what the input shows *)









Example typed_number_examples :
  startPage (onChangeStart tenPageInfo "7" (readyState tenPageInfo 3 5)) = 7
  /\ startPage (onChangeStart tenPageInfo "0" (readyState tenPageInfo 3 5)) = 1
  /\ startPage (onChangeStart tenPageInfo "-4" (readyState tenPageInfo 3 5)) = 1
  /\ endPage (onChangeEnd tenPageInfo "250" (readyState tenPageInfo 3 5)) = 10
  /\ endPage (onChangeEnd tenPageInfo "abc" (readyState tenPageInfo 3 5)) = 1
  /\ endPage (onChangeEnd tenPageInfo "4.9" (readyState tenPageInfo 3 5)) = 4.
Proof. repeat split; reflexivity. Qed.

(** ** The size shown for a file *)

Lemma tenths_of_ratio (a : Z) (d : positive) :
  Qfloor (inject_Z a / inject_Z (Z.pos d) * inject_Z 10 + (1 # 2))%Q
  = (20 * a + Z.pos d) / (2 * Z.pos d).
Proof.
  unfold Qfloor, Qdiv, Qplus, Qmult, Qinv, inject_Z. cbn [Qnum Qden].
  f_equal; lia.
Qed.

(** X2. [formatFileSize] picks the unit by size (below 1024 bytes: the byte
    count; below 1024 * 1024: KB; else MB) and shows KB and MB with one
    decimal: the tenths [n] shown are the size in that unit rounded to the
    nearest tenth, halves upwards.  In KB the number shown runs from 1.0 up
    to 1024.0. *)
Theorem formatFileSize_rounding (bytes : Z) :
  (bytes < 1024 -> formatFileSize bytes = (JS.toString bytes ++ " B")%string)
  /\ (1024 <= bytes < 1024 * 1024 ->
      exists n,
        formatFileSize bytes
        = ((JS.toString (n / 10) ++ "." ++ JS.toString (n mod 10)) ++ " KB")%string
        /\ 0 <= n mod 10 <= 9
        /\ 10 <= n <= 10240
        /\ - 1024 < 2048 * n - 20 * bytes <= 1024)
  /\ (1024 * 1024 <= bytes ->
      exists n,
        formatFileSize bytes
        = ((JS.toString (n / 10) ++ "." ++ JS.toString (n mod 10)) ++ " MB")%string
        /\ 0 <= n mod 10 <= 9
        /\ 10 <= n
        /\ - (1024 * 1024) < 2 * (1024 * 1024) * n - 20 * bytes <= 1024 * 1024).
Proof.
  unfold formatFileSize, JS.toFixed1.
  split; [| split].
  - intros H. apply Z.ltb_lt in H. now rewrite H.
  - intros [Hlo Hhi].
    apply Z.ltb_ge in Hlo. rewrite Hlo.
    pose proof Hhi as Hhi'. apply Z.ltb_lt in Hhi'. rewrite Hhi'.
    apply Z.ltb_ge in Hlo.
    rewrite tenths_of_ratio.
    eexists. split; [reflexivity |].
    pose proof (Z.mod_pos_bound ((20 * bytes + 1024) / (2 * 1024)) 10 ltac:(lia)).
    pose proof (Z.div_mod (20 * bytes + 1024) (2 * 1024) ltac:(lia)).
    pose proof (Z.mod_pos_bound (20 * bytes + 1024) (2 * 1024) ltac:(lia)).
    lia.
  - intros Hlo.
    assert (H1 : (bytes <? 1024) = false) by (apply Z.ltb_ge; lia).
    assert (H2 : (bytes <? 1024 * 1024) = false) by (apply Z.ltb_ge; lia).
    rewrite H1, H2.
    change (inject_Z (1024 * 1024)) with (inject_Z (Z.pos 1048576)).
    rewrite tenths_of_ratio.
    eexists. split; [reflexivity |].
    pose proof (Z.mod_pos_bound ((20 * bytes + 1048576) / (2 * 1048576)) 10 ltac:(lia)).
    pose proof (Z.div_mod (20 * bytes + 1048576) (2 * 1048576) ltac:(lia)).
    pose proof (Z.mod_pos_bound (20 * bytes + 1048576) (2 * 1048576) ltac:(lia)).
    lia.
Qed.

Example formatFileSize_examples :
  formatFileSize 0 = "0 B"
  /\ formatFileSize 1023 = "1023 B"
  /\ formatFileSize 1024 = "1.0 KB"
  /\ formatFileSize 1587 = "1.5 KB"
  /\ formatFileSize 1588 = "1.6 KB"
  /\ formatFileSize 1048575 = "1024.0 KB"
  /\ formatFileSize 1048576 = "1.0 MB"
  /\ formatFileSize 5000000 = "4.8 MB".
Proof. repeat split; reflexivity. Qed.

(** ** The base name of a download *)

Lemma prefix_split (p s : string) :
  String.prefix p s = true <-> exists t, s = (p ++ t)%string.
Proof.
  revert s. induction p as [|c p IH]; intros s.
  - split; [intros _; now exists s | intros _; now destruct s].
  - destruct s as [|c' s]; cbn [String.prefix String.append];
      [split; [discriminate | intros (t & [=])] |].
    destruct (ascii_dec c c') as [<-|Hne].
    + rewrite IH. split; intros (t & Ht); exists t; congruence.
    + split; [discriminate | intros (t & [= E _]); congruence].
Qed.

Lemma dropChars_append (p t : string) : JS.dropChars (String.length p) (p ++ t) = t.
Proof. induction p as [|c p IH]; [now destruct t | exact IH]. Qed.

Lemma String_replace_first (s pat rep : string) :
  (exists pre post,
     s = (pre ++ pat ++ post)%string
     /\ JS.String_replace s pat rep = (pre ++ rep ++ post)%string
     /\ forall pre' post', s = (pre' ++ pat ++ post')%string ->
                           (String.length pre <= String.length pre')%nat)
  \/ ((forall pre post, s <> (pre ++ pat ++ post)%string)
      /\ JS.String_replace s pat rep = s).
Proof.
  induction s as [|c s IH].
  - destruct pat as [|c p].
    + left. exists EmptyString, EmptyString.
      split; [reflexivity |]. split; [reflexivity | intros; apply Nat.le_0_l].
    + right. split; [| reflexivity].
      intros pre post E. destruct pre; discriminate.
  - cbn [JS.String_replace].
    destruct (String.prefix pat (String c s)) eqn:Hp.
    + left. apply prefix_split in Hp. destruct Hp as (t & Ht).
      exists EmptyString, t. cbn [String.append].
      split; [exact Ht |]. split; [| intros; apply Nat.le_0_l].
      rewrite Ht at 1. now rewrite dropChars_append.
    + assert (Hhead : forall pre post,
                 String c s = (pre ++ pat ++ post)%string ->
                 exists pre', pre = String c pre' /\ s = (pre' ++ pat ++ post)%string).
      { intros pre post E. destruct pre as [|c' pre].
        - cbn [String.append] in E.
          assert (String.prefix pat (String c s) = true)
            by (apply prefix_split; now exists post).
          congruence.
        - cbn [String.append] in E. injection E as <- E. now exists pre. }
      destruct IH as [(pre & post & Hs & Hr & Hmin) | (Hno & Hr)].
      * left. exists (String c pre), post. cbn [String.append].
        split; [now rewrite <- Hs |]. split; [now rewrite Hr |].
        intros pre' post' E. destruct (Hhead _ _ E) as (pre'' & -> & E').
        cbn [String.length]. apply le_n_S. eapply Hmin, E'.
      * right. split; [| now rewrite Hr].
        intros pre post E. destruct (Hhead _ _ E) as (pre' & _ & E').
        eapply Hno, E'.
Qed.

Lemma endsWith_append (suffix x y : string) :
  endsWith suffix y = true -> endsWith suffix (x ++ y) = true.
Proof.
  intros Hy. induction x as [|c x IH]; [exact Hy |].
  cbn [String.append endsWith]. rewrite IH. apply orb_true_r.
Qed.

Lemma downloadName_endsWith (info : PdfInfo) (s e : Z) :
  endsWith ".pdf" (downloadName info s e) = true.
Proof. unfold downloadName. do 5 apply endsWith_append. reflexivity. Qed.

(** X3. The name of a download is [base ++ "_pages_<s>-<e>.pdf"] and so
    always ends in [.pdf]; [base] is the file name with its first (leftmost)
    occurrence of [.pdf] cut out, and the whole file name when [.pdf] does
    not occur in it. *)
Theorem downloadName_shape (info : PdfInfo) (s e : Z) :
  exists base,
    downloadName info s e
    = (base ++ "_pages_" ++ JS.toString s ++ "-" ++ JS.toString e ++ ".pdf")%string
    /\ endsWith ".pdf" (downloadName info s e) = true
    /\ ((exists pre post,
           name info = (pre ++ ".pdf" ++ post)%string
           /\ base = (pre ++ post)%string
           /\ forall pre' post', name info = (pre' ++ ".pdf" ++ post')%string ->
                                 (String.length pre <= String.length pre')%nat)
        \/ ((forall pre post, name info <> (pre ++ ".pdf" ++ post)%string)
            /\ base = name info)).
Proof.
  exists (JS.String_replace (name info) ".pdf" EmptyString).
  split; [reflexivity |]. split.
  - apply downloadName_endsWith.
  - destruct (String_replace_first (name info) ".pdf" EmptyString)
      as [(pre & post & Hs & Hr & Hmin) | (Hno & Hr)].
    + left. exists pre, post. split; [exact Hs |]. split; [exact Hr | exact Hmin].
    + right. split; [exact Hno | exact Hr].
Qed.

Example downloadName_examples :
  downloadName {| name := "scan"; pageCount := 3; size := "4 B";
                  data := []; url := None |} 2 3 = "scan_pages_2-3.pdf"
  /\ downloadName {| name := "REPORT.PDF"; pageCount := 3; size := "4 B";
                     data := []; url := None |} 1 1 = "REPORT.PDF_pages_1-1.pdf"
  /\ downloadName signedInfo 10 10 = "report.signed.pdf_pages_10-10.pdf".
Proof. repeat split; reflexivity. Qed.

(** ** What the preview marks and what an extraction copies *)

Lemma filter_interval (s e a : Z) (n : nat) :
  filter (fun p => (p >=? s) && (p <=? e))
         (map (fun k => a + Z.of_nat k) (seq 0 n))
  = map (fun k => Z.max a s + Z.of_nat k)
        (seq 0 (Z.to_nat (Z.min (a + Z.of_nat n - 1) e - Z.max a s + 1))).
Proof.
  revert a. induction n as [|n IH]; intros a.
  - cbn [seq map filter].
    replace (Z.to_nat _) with 0%nat by lia. reflexivity.
  - cbn [seq map filter]. rewrite seq_from, IH, Z.add_0_r.
    destruct (a >=? s) eqn:Es; [rewrite Z.geb_le in Es | rewrite Z.geb_leb in Es; apply Z.leb_gt in Es];
      (destruct (a <=? e) eqn:Ee; [apply Z.leb_le in Ee | apply Z.leb_gt in Ee]);
      cbn [andb].
    + replace (Z.to_nat (Z.min (a + Z.of_nat (S n) - 1) e - Z.max a s + 1))
        with (S (Z.to_nat (Z.min (a + 1 + Z.of_nat n - 1) e - Z.max (a + 1) s + 1)))
        by lia.
      cbn [seq map]. rewrite seq_from.
      f_equal; [lia |]. apply map_ext. intros k. lia.
    + replace (Z.to_nat (Z.min (a + Z.of_nat (S n) - 1) e - Z.max a s + 1))
        with 0%nat by lia.
      replace (Z.to_nat (Z.min (a + 1 + Z.of_nat n - 1) e - Z.max (a + 1) s + 1))
        with 0%nat by lia.
      reflexivity.
    + replace (Z.min (a + Z.of_nat (S n) - 1) e - Z.max a s + 1)
        with (Z.min (a + 1 + Z.of_nat n - 1) e - Z.max (a + 1) s + 1) by lia.
      apply map_ext. intros k. lia.
    + replace (Z.to_nat (Z.min (a + Z.of_nat (S n) - 1) e - Z.max a s + 1))
        with 0%nat by lia.
      replace (Z.to_nat (Z.min (a + 1 + Z.of_nat n - 1) e - Z.max (a + 1) s + 1))
        with 0%nat by lia.
      reflexivity.
Qed.

(** X4. For a valid range, the page numbers the preview marks as selected,
    in the order of the thumbnails, are exactly the pages an extraction
    copies, in the order it copies them (each index plus one); their number
    is the count shown. *)
Theorem selected_pages_are_extracted (st : State) (info : PdfInfo) :
  pdfInfo st = Some info ->
  isValidRange st = true ->
  filter (isPageSelected st) (pageNumbers st)
  = map (fun i => i + 1) (pageIndicesOf (startPage st - 1) (endPage st - 1))
  /\ filter (isPageVisible st) (pageNumbers st)
     = filter (isPageSelected st) (pageNumbers st)
  /\ Z.of_nat (List.length (filter (isPageSelected st) (pageNumbers st)))
     = selectedPageCount st.
Proof.
  intros Hinfo Hv. pose proof Hv as Hr.
  apply (isValidRange_iff st info Hinfo) in Hr. destruct Hr as (Hs & Hse & He).
  assert (Hsel : filter (isPageSelected st) (pageNumbers st)
                 = map (fun i => i + 1)
                       (pageIndicesOf (startPage st - 1) (endPage st - 1))).
  { unfold pageNumbers. rewrite Hinfo.
    rewrite (map_ext (fun i => Z.of_nat i + 1) (fun k => 1 + Z.of_nat k))
      by (intros; lia).
    unfold isPageSelected. rewrite filter_interval.
    rewrite pageIndicesOf_range. unfold zeroIndexedRange. rewrite map_map.
    replace (Z.min (1 + Z.of_nat (Z.to_nat (pageCount info)) - 1) (endPage st)
             - Z.max 1 (startPage st) + 1)
      with (endPage st - startPage st + 1) by lia.
    apply map_ext. intros k. lia. }
  split; [exact Hsel |]. split; [reflexivity |].
  rewrite Hsel, length_map, pageIndicesOf_range.
  unfold zeroIndexedRange, selectedPageCount.
  rewrite Hv, length_map, length_seq. lia.
Qed.

Lemma selected_pages_are_extracted_witness :
  pdfInfo (readyState tenPageInfo 3 5) = Some tenPageInfo
  /\ isValidRange (readyState tenPageInfo 3 5) = true
  /\ filter (isPageSelected (readyState tenPageInfo 3 5))
            (pageNumbers (readyState tenPageInfo 3 5))
     = map (fun i => i + 1) (pageIndicesOf (3 - 1) (5 - 1)).
Proof.
  split; [reflexivity |]. split; [reflexivity |].
  exact (proj1 (selected_pages_are_extracted (readyState tenPageInfo 3 5)
                  tenPageInfo eq_refl eq_refl)).
Defined.

(** ** Ranges outside the document *)

Lemma copyPages_missing {L : PdfLib} (src : PDFDocument) (indices : list Z) (i : Z) :
  In i indices -> at_index src i = None -> copyPages src indices = None.
Proof.
  intros Hin Hi. induction indices as [|j rest IH]; [destruct Hin |].
  cbn [copyPages]. destruct Hin as [->|Hin].
  - now rewrite Hi.
  - destruct (at_index src j); cbn [bind_opt]; [| reflexivity].
    now rewrite (IH Hin).
Qed.

Lemma zeroIndexedRange_ends (s e : Z) :
  s <= e -> In (s - 1) (zeroIndexedRange s e) /\ In (e - 1) (zeroIndexedRange s e).
Proof.
  intros Hse. unfold zeroIndexedRange. split; apply in_map_iff.
  - exists 0%nat. split; [lia | apply in_seq; lia].
  - exists (Z.to_nat (e - s)). split; [lia | apply in_seq; lia].
Qed.

Lemma at_index_outside {A : Type} (l : list A) (i : Z) :
  i < 0 \/ Z.of_nat (List.length l) <= i -> at_index l i = None.
Proof.
  intros H. unfold at_index.
  destruct (i <? 0) eqn:E; [reflexivity |].
  apply Z.ltb_ge in E. apply nth_error_None. lia.
Qed.

Lemma extractPages_newPdf_empty {L : PdfLib} (info : PdfInfo) (src : PDFDocument)
      (s e : Z) :
  PDFDocument_load (data info) = Some src -> e < s ->
  extractPages_newPdf info s e = Some [].
Proof.
  intros Hload Hlt. unfold extractPages_newPdf. rewrite Hload. cbn [bind_opt].
  rewrite pageIndicesOf_range. unfold zeroIndexedRange.
  replace (Z.to_nat (e - s + 1)) with 0%nat by lia. reflexivity.
Qed.

(** X5. On a document whose bytes open to [src], the steps of an extraction
    before serialization succeed exactly when the range is empty
    ([e < s]) or lies within the document ([1 <= s] and [e <= ] its page
    count).  An empty range gives an empty document, not an error; a
    non-empty range that starts below page 1 or ends beyond the last page
    makes the copy fail. *)
Theorem extractPages_newPdf_defined {L : PdfLib} (info : PdfInfo) (src : PDFDocument)
        (s e : Z) :
  PDFDocument_load (data info) = Some src ->
  (extractPages_newPdf info s e <> None
   <-> e < s \/ (1 <= s /\ e <= getPageCount src))
  /\ (e < s -> extractPages_newPdf info s e = Some [])
  /\ (s <= e -> s < 1 \/ getPageCount src < e ->
      copyPages src (pageIndicesOf (s - 1) (e - 1)) = None).
Proof.
  intros Hload.
  assert (Hempty : e < s -> extractPages_newPdf info s e = Some []).
  { intros Hlt. now apply (extractPages_newPdf_empty info src). }
  assert (Hout : s <= e -> s < 1 \/ getPageCount src < e ->
                 copyPages src (pageIndicesOf (s - 1) (e - 1)) = None).
  { intros Hse Hbad. rewrite pageIndicesOf_range.
    destruct (zeroIndexedRange_ends s e Hse) as [Hfirst Hlast].
    unfold getPageCount in Hbad. destruct Hbad as [Hlow|Hhigh].
    - apply (copyPages_missing src _ (s - 1) Hfirst), at_index_outside. lia.
    - apply (copyPages_missing src _ (e - 1) Hlast), at_index_outside. lia. }
  split; [| split; assumption].
  split.
  - intros Hdef.
    destruct (Z_lt_le_dec e s) as [Hlt|Hse]; [now left | right].
    destruct (Z_lt_le_dec s 1) as [Hlow|Hs];
      [| destruct (Z_lt_le_dec (getPageCount src) e) as [Hhigh|He]; [| now split]];
      exfalso; apply Hdef; unfold extractPages_newPdf;
      rewrite Hload; cbn [bind_opt]; rewrite Hout by (assumption || lia);
      reflexivity.
  - intros [Hlt | [Hs He]].
    + now rewrite Hempty.
    + destruct (Z_lt_le_dec e s) as [Hlt|Hse]; [now rewrite Hempty |].
      now rewrite (extractPages_newPdf_range info src s e Hload Hs Hse He).
Qed.

Lemma extractPages_newPdf_defined_witness :
  @PDFDocument_load byteLib (data tenPageInfo) = Some (tl tenPages)
  /\ @extractPages_newPdf byteLib tenPageInfo 5 3 = Some []
  /\ @extractPages_newPdf byteLib tenPageInfo 9 11 = None
  /\ @extractPages_newPdf byteLib tenPageInfo 0 2 = None.
Proof.
  pose proof (fun s e => @extractPages_newPdf_defined byteLib tenPageInfo (tl tenPages)
                           s e eq_refl) as H.
  split; [reflexivity |]. split; [| split].
  - apply (H 5 3). lia.
  - destruct (@extractPages_newPdf byteLib tenPageInfo 9 11) eqn:E; [| reflexivity].
    exfalso. assert (Hd : @extractPages_newPdf byteLib tenPageInfo 9 11 <> None)
      by (rewrite E; discriminate).
    apply (H 9 11) in Hd. cbn in Hd. lia.
  - destruct (@extractPages_newPdf byteLib tenPageInfo 0 2) eqn:E; [| reflexivity].
    exfalso. assert (Hd : @extractPages_newPdf byteLib tenPageInfo 0 2 <> None)
      by (rewrite E; discriminate).
    apply (H 0 2) in Hd. cbn in Hd. lia.
Defined.

(** ** Loading, then extracting everything *)

(** X6. After a file has been loaded, the range the load leaves selects the
    whole document: an extraction with the state as the load left it copies
    every page of the opened document, in order, and what it serializes is
    the opened document itself. *)
Theorem load_then_extract_all {L : PdfLib} (v : Variant) (file : File) (st : State)
        (w : World) (buf : ArrayBuffer) (pdf : PDFDocument) :
  openFile file = Some (buf, pdf) ->
  exists info,
    pdfInfo (fst (loadPdf v file st w)) = Some info
    /\ extractPages_newPdf info (startPage (fst (loadPdf v file st w)))
                           (endPage (fst (loadPdf v file st w))) = Some pdf
    /\ extractedBytes info (startPage (fst (loadPdf v file st w)))
                      (endPage (fst (loadPdf v file st w))) = PDFDocument_save pdf.
Proof.
  intros Hopen.
  pose proof (loadPdf_try_outcome v file w) as Htry. rewrite Hopen in Htry.
  destruct Htry as (u & w' & Htry & _).
  assert (Hload : PDFDocument_load buf = Some pdf).
  { unfold openFile in Hopen.
    destruct (file_arrayBuffer file) as [b|]; cbn [bind_opt] in Hopen; [| discriminate].
    destruct (PDFDocument_load b) as [d|] eqn:Hl; cbn [bind_opt] in Hopen; [| discriminate].
    now injection Hopen as <- <-. }
  unfold loadPdf. cbn [settleNow resume]. unfold loadPdf_end. rewrite Htry.
  cbn [fst pdfInfo startPage endPage setIsProcessing setEndPage setStartPage setPdfInfo pageCount].
  eexists. split; [reflexivity |].
  assert (Hnew : extractPages_newPdf
                   {| name := file_name file; pageCount := getPageCount pdf;
                      size := formatFileSize (file_size file); data := buf; url := u |}
                   1 (getPageCount pdf) = Some pdf).
  { set (info := {| name := file_name file; pageCount := getPageCount pdf;
                    size := formatFileSize (file_size file); data := buf; url := u |}).
    assert (Hload' : PDFDocument_load (data info) = Some pdf) by exact Hload.
    destruct (Z_lt_le_dec (getPageCount pdf) 1) as [Hzero|Hpos].
    - rewrite (extractPages_newPdf_empty info pdf 1 _ Hload' Hzero).
      destruct pdf; [reflexivity |].
      unfold getPageCount in Hzero. cbn [List.length] in Hzero. lia.
    - rewrite (extractPages_newPdf_range info pdf 1 _ Hload') by lia.
      replace (Z.to_nat (1 - 1)) with 0%nat by lia. cbn [skipn].
      unfold getPageCount.
      replace (Z.to_nat (Z.of_nat (List.length pdf) - 1 + 1)) with (List.length pdf) by lia.
      now rewrite firstn_all. }
  split; [exact Hnew |].
  unfold extractedBytes. now rewrite Hnew.
Qed.

Lemma load_then_extract_all_witness :
  @openFile byteLib (pdfFile "doc.pdf" tenPages) = Some (tenPages, tl tenPages)
  /\ @extractedBytes byteLib tenPageInfo 1 10 = Some tenPages.
Proof.
  destruct (@load_then_extract_all byteLib VSerif (pdfFile "doc.pdf" tenPages)
              initialState initialWorld tenPages (tl tenPages) eq_refl)
    as (info & Hinfo & _ & Hbytes).
  split; [reflexivity |].
  injection Hinfo as <-. exact Hbytes.
Defined.

(** ** Object URLs are released *)

Lemma revoke_fresh_url (blob : Blob) (w : World) :
  worldFresh w ->
  filter (fun e => negb (Nat.eqb (fst e) (nextURL w))) ((nextURL w, blob) :: objectURLs w)
  = objectURLs w.
Proof.
  intros Hf. cbn [filter fst]. rewrite Nat.eqb_refl. cbn [negb].
  unfold worldFresh in Hf. induction Hf as [|x l Hx Hl IH]; [reflexivity |].
  cbn [filter]. replace (Nat.eqb (fst x) (nextURL w)) with false
    by (symmetry; apply Nat.eqb_neq; lia).
  cbn [negb]. now rewrite IH.
Qed.

Lemma createObjectURL_fresh (blob : Blob) (w : World) :
  worldFresh w -> worldFresh (snd (URL_createObjectURL blob w)).
Proof.
  unfold worldFresh. intros Hf. cbn. constructor; [cbn; lia |].
  eapply Forall_impl; [| exact Hf]. cbn. intros; lia.
Qed.

Lemma revokeObjectURL_fresh (u : nat) (w : World) :
  worldFresh w -> worldFresh (URL_revokeObjectURL u w).
Proof.
  unfold worldFresh. intros Hf. cbn.
  apply Forall_forall. intros x Hx. apply filter_In in Hx.
  rewrite Forall_forall in Hf. apply Hf, Hx.
Qed.

Lemma link_click_fresh (u : nat) (file : string) (w : World) :
  worldFresh w -> worldFresh (link_click u file w).
Proof.
  unfold link_click. now destruct (resolveURL (objectURLs w) u).
Qed.

Section Release.
Context {L : PdfLib}.
Variable v : Variant.

Lemma extractPages_try_urls (info : PdfInfo) (s e : Z) (w w' : World) :
  worldFresh w -> extractPages_try info s e w = Some w' ->
  objectURLs w' = objectURLs w /\ nextURL w' = S (nextURL w) /\ worldFresh w'.
Proof.
  intros Hf. unfold extractPages_try.
  destruct (extractPages_newPdf info s e) as [doc|]; cbn [bind_opt]; [| discriminate].
  destruct (PDFDocument_save doc) as [pdfBytes|]; cbn [bind_opt]; [| discriminate].
  intros [= <-].
  unfold link_click, URL_createObjectURL, URL_revokeObjectURL.
  cbn [objectURLs resolveURL nextURL]. rewrite Nat.eqb_refl. cbn [objectURLs nextURL].
  rewrite (revoke_fresh_url _ w Hf).
  split; [reflexivity |]. split; [reflexivity |].
  unfold worldFresh in *. cbn [objectURLs nextURL].
  eapply Forall_impl; [| exact Hf]. cbn. intros; lia.
Qed.

Lemma resume_fresh (t : Task) (st : State) (w : World) :
  worldFresh w -> worldFresh (snd (resume v t st w)).
Proof.
  intros Hf. destruct t as [file | info a b]; cbn [resume].
  - unfold loadPdf_end, loadPdf_try.
    destruct (file_arrayBuffer file) as [buf|]; cbn [bind_opt]; [| exact Hf].
    destruct (PDFDocument_load buf) as [pdf|]; cbn [bind_opt]; [| exact Hf].
    destruct v; cbn [snd]; try exact Hf.
    apply (createObjectURL_fresh _ w Hf).
  - unfold extractPages_end.
    destruct (extractPages_try info a b w) as [w'|] eqn:Ht; cbn [snd]; [| exact Hf].
    now apply (extractPages_try_urls info a b w w' Hf).
Qed.

(** X7. An extraction leaves no object URL behind: whether it succeeds or
    fails, the live object URLs after it are those before it. *)
Theorem extractPages_releases_url (st : State) (w : World) :
  worldFresh w ->
  objectURLs (snd (extractPages v st w)) = objectURLs w
  /\ worldFresh (snd (extractPages v st w)).
Proof.
  intros Hf. unfold extractPages, extractPages_begin.
  destruct (pdfInfo st) as [info|]; cbn [settleNow resume snd]; [| now split].
  unfold extractPages_end.
  destruct (extractPages_try info (startPage st) (endPage st) w) as [w'|] eqn:Ht;
    cbn [snd]; [| now split].
  destruct (extractPages_try_urls _ _ _ _ _ Hf Ht) as (H1 & _ & H3). now split.
Qed.

(** X8. Loading a file and then removing it gives back the empty page with
    the range [[1, 1]] and no error, and releases the preview's object URL:
    the live object URLs are those from before the load, whether or not the
    file opened. *)
Theorem load_then_remove (file : File) (st : State) (w : World) :
  worldFresh w ->
  let loaded := loadPdf v file st w in
  let removed := resetFile v (fst loaded) (snd loaded) in
  objectURLs (snd removed) = objectURLs w
  /\ downloads (snd removed) = downloads w
  /\ pdfInfo (fst removed) = None
  /\ startPage (fst removed) = 1 /\ endPage (fst removed) = 1
  /\ error (fst removed) = None
  /\ isProcessing (fst removed) = false.
Proof.
  intros Hf loaded removed. subst removed loaded.
  unfold loadPdf. cbn [settleNow resume]. unfold loadPdf_end, loadPdf_try.
  destruct (file_arrayBuffer file) as [buf|]; cbn [bind_opt];
    [| unfold resetFile; destruct v; cbn; repeat split; reflexivity].
  destruct (PDFDocument_load buf) as [pdf|]; cbn [bind_opt];
    [| unfold resetFile; destruct v; cbn; repeat split; reflexivity].
  destruct v; unfold resetFile; cbn; repeat split; try reflexivity.
  apply (revoke_fresh_url _ w Hf).
Qed.

End Release.

Lemma extractPages_releases_url_witness :
  worldFresh initialWorld
  /\ objectURLs (snd (@extractPages byteLib VPreview (readyState tenPageInfo 3 5)
                        initialWorld)) = [].
Proof.
  assert (Hf : worldFresh initialWorld) by constructor.
  split; [exact Hf |].
  exact (proj1 (@extractPages_releases_url byteLib VPreview
                  (readyState tenPageInfo 3 5) initialWorld Hf)).
Defined.

Lemma load_then_remove_witness :
  worldFresh initialWorld
  /\ objectURLs (snd (resetFile VPreview
       (fst (@loadPdf byteLib VPreview (pdfFile "doc.pdf" tenPages) initialState initialWorld))
       (snd (@loadPdf byteLib VPreview (pdfFile "doc.pdf" tenPages) initialState initialWorld))))
     = [].
Proof.
  assert (Hf : worldFresh initialWorld) by constructor.
  split; [exact Hf |].
  exact (proj1 (@load_then_remove byteLib VPreview (pdfFile "doc.pdf" tenPages)
                  initialState initialWorld Hf)).
Defined.

(** ** Every state the page can reach *)

Section Invariants.
Context {L : PdfLib}.
Variable v : Variant.

(** What an accepted event was applied to, and what it produced. *)
Lemma step_inversion (e : Event) (s s' : Sys) :
  step v e s = Some s' ->
  match e with
  | Settled k =>
      exists t, nth_error (inflight s) k = Some t
        /\ s' = {| ui := fst (resume v t (ui s) (world s));
                   world := snd (resume v t (ui s) (world s));
                   inflight := removeNth k (inflight s) |}
  | FilePicked files0 =>
      pdfInfo (ui s) = None /\ s' = spawn s (handleFileSelect_begin v files0 (ui s))
  | FileDropped files0 =>
      pdfInfo (ui s) = None /\ s' = spawn s (handleDrop_begin v files0 (ui s))
  | DragOver => pdfInfo (ui s) = None /\ s' = withUi s (handleDragOver (ui s))
  | DragLeave => pdfInfo (ui s) = None /\ s' = withUi s (handleDragLeave (ui s))
  | TypedStart value =>
      exists info, pdfInfo (ui s) = Some info
        /\ s' = withUi s (onChangeStart info value (ui s))
  | TypedEnd value =>
      exists info, pdfInfo (ui s) = Some info
        /\ s' = withUi s (onChangeEnd info value (ui s))
  | PressAll =>
      exists info, pdfInfo (ui s) = Some info /\ s' = withUi s (clickAll info (ui s))
  | PressFirst =>
      exists info, pdfInfo (ui s) = Some info /\ s' = withUi s (clickFirst (ui s))
  | PressLast =>
      exists info, pdfInfo (ui s) = Some info /\ s' = withUi s (clickLast info (ui s))
  | PressFirstHalf =>
      exists info, pdfInfo (ui s) = Some info /\ firstHalfOffered v info = true
        /\ s' = withUi s (clickFirstHalf info (ui s))
  | PressThumb pageNum =>
      exists info, pdfInfo (ui s) = Some info /\ v = VPreview
        /\ In pageNum (pageNumbers (ui s))
        /\ s' = withUi s (clickThumb pageNum (ui s))
  | PressRemove =>
      exists info, pdfInfo (ui s) = Some info
        /\ s' = {| ui := fst (resetFile v (ui s) (world s));
                   world := snd (resetFile v (ui s) (world s));
                   inflight := inflight s |}
  | PressExtract =>
      exists info, pdfInfo (ui s) = Some info
        /\ isValidRange (ui s) = true /\ isProcessing (ui s) = false
        /\ s' = spawn s (setIsProcessing true (setError None (ui s)),
                         Some (ExtractPagesTask info (startPage (ui s)) (endPage (ui s))))
  end.
Proof.
  destruct e; unfold step.
  14: { destruct (nth_error (inflight s) k) as [t|]; [| discriminate].
        destruct (resume v t (ui s) (world s)) as [st w] eqn:Hr.
        intros [= <-]. exists t. rewrite Hr. split; reflexivity. }
  all: destruct (pdfInfo (ui s)) as [info|] eqn:Hinfo; try discriminate.
  all: try (intros [= <-]; (now split) || (now exists info)).
  - destruct (firstHalfOffered v info) eqn:Hoff; [| discriminate].
    intros [= <-]. exists info. now repeat split.
  - destruct v; try discriminate.
    destruct (existsb (Z.eqb pageNum) (pageNumbers (ui s))) eqn:Hex; [| discriminate].
    intros [= <-]. exists info. split; [reflexivity |]. split; [reflexivity |].
    split; [| reflexivity].
    apply existsb_exists in Hex. destruct Hex as (x & Hx & Heq).
    apply Z.eqb_eq in Heq. now subst x.
  - destruct (extractDisabled (ui s)) eqn:Hd; [discriminate |].
    intros [= <-]. unfold extractDisabled in Hd.
    apply orb_false_iff in Hd. destruct Hd as [Hv Hp].
    apply negb_false_iff in Hv.
    exists info. unfold extractPages_begin. rewrite Hinfo. now repeat split.
Qed.

Lemma run_invariant (P : Sys -> Prop) :
  (forall e s s', P s -> step v e s = Some s' -> P s') ->
  forall es s s', P s -> run v es s = Some s' -> P s'.
Proof.
  intros Hstep es. induction es as [|e es IH]; intros s s' Hs; cbn [run].
  - now intros [= <-].
  - destruct (step v e s) as [s1|] eqn:He; cbn [bind_opt]; [| discriminate].
    apply IH. eapply Hstep; eassumption.
Qed.

Lemma spawn_parts (s : Sys) (r : State * option Task) :
  ui (spawn s r) = fst r /\ world (spawn s r) = world s
  /\ inflight (spawn s r) = inflight s ++ match snd r with Some t => [t] | None => [] end.
Proof. now repeat split. Qed.

Ltac open_step H :=
  apply step_inversion in H; cbv beta iota in H;
  repeat match type of H with
         | exists _, _ => let x := fresh "x" in destruct H as [x H]
         | _ /\ _ => let Hc := fresh "Hc" in destruct H as [Hc H]
         end;
  try subst.

(** The browser changes only when a call settles or the file is removed. *)
Lemma step_world (e : Event) (s s' : Sys) :
  step v e s = Some s' ->
  world s' = world s
  \/ (exists t, In t (inflight s) /\ world s' = snd (resume v t (ui s) (world s)))
  \/ world s' = snd (resetFile v (ui s) (world s)).
Proof.
  intros H. destruct e; open_step H; try (left; reflexivity).
  - right. right. reflexivity.
  - right. left. exists x. split; [eapply nth_error_In; eassumption | reflexivity].
Qed.

(** Live object URLs stay below the next one to be handed out. *)
Lemma reachable_worldFresh (es : list Event) (s : Sys) :
  run v es initialSys = Some s -> worldFresh (world s).
Proof.
  apply (run_invariant (fun s => worldFresh (world s))); [| constructor].
  clear. intros e s s' Hs Hstep.
  destruct (step_world e s s' Hstep) as [-> | [(t & _ & ->) | ->]].
  - exact Hs.
  - now apply resume_fresh.
  - unfold resetFile.
    destruct v; cbn [snd]; try exact Hs.
    destruct (pdfInfo (ui s)) as [i|]; [| exact Hs].
    destruct (url i); [| exact Hs]. now apply revokeObjectURL_fresh.
Qed.

(** *** Downloads *)

Lemma resume_downloads (t : Task) (st : State) (w : World) :
  downloads (snd (resume v t st w)) = downloads w
  \/ exists info a b pdfBytes,
       t = ExtractPagesTask info a b
       /\ downloads (snd (resume v t st w))
          = downloads w ++ [pdfDownload (downloadName info a b) pdfBytes].
Proof.
  destruct t as [file | info a b]; cbn [resume].
  - left. unfold loadPdf_end.
    pose proof (loadPdf_try_outcome v file w) as H.
    destruct (openFile file) as [[buf pdf]|].
    + destruct H as (u & w' & -> & Hd & _). exact Hd.
    + now rewrite H.
  - unfold extractPages_end.
    pose proof (extractPages_try_outcome info a b w) as H.
    destruct (extractedBytes info a b) as [pdfBytes|].
    + right. destruct H as (w' & -> & Hd). now exists info, a, b, pdfBytes.
    + left. now rewrite H.
Qed.

Lemma resetFile_downloads (st : State) (w : World) :
  downloads (snd (resetFile v st w)) = downloads w.
Proof.
  unfold resetFile. destruct v; cbn [snd]; try reflexivity.
  destruct (pdfInfo st) as [i|]; [| reflexivity]. now destruct (url i).
Qed.

(** X10. Downloads are only ever added, one at a time and only when an
    extraction settles; and in every state reached from the empty page each
    download offered so far has MIME type [application/pdf] and a name
    ending in [.pdf]. *)
Theorem reachable_downloads (es : list Event) (s : Sys) :
  run v es initialSys = Some s ->
  Forall pdfDownloadOk (downloads (world s))
  /\ forall e s',
       step v e s = Some s' ->
       downloads (world s') = downloads (world s)
       \/ exists k info a b pdfBytes,
            e = Settled k
            /\ nth_error (inflight s) k = Some (ExtractPagesTask info a b)
            /\ downloads (world s')
               = downloads (world s) ++ [pdfDownload (downloadName info a b) pdfBytes].
Proof.
  assert (Hone : forall e s s',
             step v e s = Some s' ->
             downloads (world s') = downloads (world s)
             \/ exists k info a b pdfBytes,
                  e = Settled k
                  /\ nth_error (inflight s) k = Some (ExtractPagesTask info a b)
                  /\ downloads (world s')
                     = downloads (world s) ++ [pdfDownload (downloadName info a b) pdfBytes]).
  { clear. intros e s s' H. destruct e; open_step H; try (left; reflexivity).
    - left. apply resetFile_downloads.
    - cbn [world].
      destruct (resume_downloads x (ui s) (world s))
        as [Hd | (info & a & b & pdfBytes & -> & Hd)]; [now left | right].
      now exists k, info, a, b, pdfBytes. }
  intros Hrun. split; [| intros e s'; apply Hone].
  revert Hrun.
  apply (run_invariant (fun s => Forall pdfDownloadOk (downloads (world s))));
    [| constructor].
  clear - Hone. intros e s s' Hs Hstep.
  destruct (Hone e s s' Hstep) as [-> | (k & info & a & b & pdfBytes & _ & _ & ->)];
    [exact Hs |].
  apply Forall_app. split; [exact Hs |].
  constructor; [| constructor]. split; [reflexivity |].
  apply downloadName_endsWith.
Qed.

(** *** The processing flag *)

Lemma resume_not_processing (t : Task) (st : State) (w : World) :
  isProcessing (fst (resume v t st w)) = false.
Proof.
  destruct t as [file | info a b]; cbn [resume].
  - unfold loadPdf_end. now destruct (loadPdf_try v file w) as [[i w']|].
  - unfold extractPages_end. now destruct (extractPages_try info a b w).
Qed.

(** X11. The page is never left showing work that is not there: in every
    state reached from the empty page, [isProcessing] being set means that
    some load or extraction is still in flight. *)
Theorem reachable_processing (es : list Event) (s : Sys) :
  run v es initialSys = Some s ->
  isProcessing (ui s) = true -> inflight s <> [].
Proof.
  apply (run_invariant (fun s => isProcessing (ui s) = true -> inflight s <> []));
    [| discriminate].
  clear. intros e s s' Hs H.
  destruct e; open_step H; cbn [ui inflight withUi]; try exact Hs.
  all: try (rewrite resume_not_processing; discriminate).
  all: try (unfold resetFile; cbn; exact Hs).
  all: try (unfold handleFileSelect_begin, handleDrop_begin;
            destruct files0 as [file|]; [destruct (String.eqb _ _) |];
            cbn; rewrite ?app_nil_r; try exact Hs).
  all: cbn; intros _; now destruct (inflight s).
Qed.

(** *** Extractions started from the page *)

Lemma step_capturedRanges (e : Event) (s s' : Sys) :
  capturedRangesValid s -> step v e s = Some s' -> capturedRangesValid s'.
Proof.
  unfold capturedRangesValid. intros Hs H info a b.
  destruct e; open_step H; cbn [inflight withUi spawn snd]; try apply Hs.
  all: try (intros Hin; eapply Hs, In_removeNth, Hin).
  all: try (unfold handleFileSelect_begin, handleDrop_begin;
            destruct files0 as [file|]; [destruct (String.eqb _ _) |];
            cbn [snd]; rewrite ?app_nil_r; try apply Hs;
            intros Hin; apply in_app_or in Hin;
            destruct Hin as [Hin | [Hin | []]]; [now apply Hs | discriminate]).
  intros Hin. apply in_app_or in Hin. destruct Hin as [Hin | [Hin | []]];
    [now apply Hs |].
  injection Hin as <- <- <-.
  apply (isValidRange_iff (ui s) x Hc) in Hc0. lia.
Qed.

(** X12. An extraction can only be started with a valid range on a loaded
    document.  So for every extraction in flight in a state reached from the
    empty page, the range [[a, b]] it captured satisfies
    [1 <= a <= b <= pageCount] and its copy step succeeds with
    [b - a + 1] pages: once started, only serialization can make it fail. *)
Theorem reachable_extractions_copy (es : list Event) (s : Sys)
        (info : PdfInfo) (a b : Z) :
  run v es initialSys = Some s ->
  In (ExtractPagesTask info a b) (inflight s) ->
  1 <= a /\ a <= b /\ b <= pageCount info
  /\ exists out,
       extractPages_newPdf info a b = Some out
       /\ getPageCount out = b - a + 1
       /\ extractedBytes info a b = PDFDocument_save out.
Proof.
  intros Hrun Hin.
  assert (Hcap : capturedRangesValid s).
  { revert Hrun. apply (run_invariant capturedRangesValid).
    - intros e s0 s1. apply step_capturedRanges.
    - intros ? ? ? []. }
  assert (Hld : sysLoaded s).
  { apply (run_loaded v es initialSys s); [| exact Hrun].
    split; cbn; [discriminate | intros ? ? ? []]. }
  destruct (Hcap info a b Hin) as (Ha & Hab & Hb).
  destruct (proj2 Hld info a b Hin) as (src & Hload & Hcount).
  split; [exact Ha |]. split; [exact Hab |]. split; [exact Hb |].
  rewrite Hcount in Hb.
  exists (firstn (Z.to_nat (b - a + 1)) (skipn (Z.to_nat (a - 1)) src)).
  pose proof (extractPages_newPdf_range info src a b Hload Ha Hab Hb) as Hnew.
  split; [exact Hnew |]. split.
  - unfold getPageCount in *. rewrite slice_length; lia.
  - unfold extractedBytes. now rewrite Hnew.
Qed.

(** *** The bounds of the range *)

Lemma Math_ceil_half_bounds (n : Z) :
  1 <= n -> 1 <= JS.Math_ceil (inject_Z n / inject_Z 2)%Q <= n.
Proof.
  intros Hn. pose proof (Math_ceil_half n) as H. unfold isCeilHalf in H. lia.
Qed.

Lemma resume_bounds (t : Task) (st : State) (w : World) :
  boundsInDocument st -> boundsInDocument (fst (resume v t st w)).
Proof.
  unfold boundsInDocument. intros Hst info.
  destruct t as [file | info0 a b]; cbn [resume].
  - unfold loadPdf_end. destruct (loadPdf_try v file w) as [[i w']|]; cbn.
    + intros [= <-] Hn. lia.
    + discriminate.
  - unfold extractPages_end. destruct (extractPages_try info0 a b w); cbn; apply Hst.
Qed.

Lemma step_bounds (e : Event) (s s' : Sys) :
  boundsInDocument (ui s) -> step v e s = Some s' -> boundsInDocument (ui s').
Proof.
  intros Hs H.
  destruct e; open_step H; cbn [ui withUi spawn fst].
  all: try (now apply resume_bounds).
  all: try (unfold handleFileSelect_begin, handleDrop_begin;
            destruct files0 as [file|]; [destruct (String.eqb _ _) |]).
  all: unfold boundsInDocument in *; cbn; intros info;
    try (rewrite Hc; discriminate); try (unfold resetFile; cbn; discriminate);
    intros Hi Hn; try (rewrite Hc in Hi; injection Hi as <-);
    try (specialize (Hs _ Hc Hn)); try lia.
  all: try (pose proof (clamp_bounds (JS.orElse (JS.parseInt value) 1) (pageCount x));
            lia).
  all: try (pose proof (Math_ceil_half_bounds (pageCount x) Hn); lia).
  all: apply pageNumbers_In in Hc1; destruct Hc1 as (i & Hi' & Hp);
    rewrite Hc in Hi'; injection Hi' as <-; lia.
Qed.

(** X13. In every state reached from the empty page, a loaded document with
    at least one page has both bounds inside it:
    [1 <= startPage <= pageCount] and [1 <= endPage <= pageCount].  So the
    only way its range can be invalid is [endPage < startPage]. *)
Theorem reachable_bounds (es : list Event) (s : Sys) (info : PdfInfo) :
  run v es initialSys = Some s ->
  pdfInfo (ui s) = Some info ->
  1 <= pageCount info ->
  1 <= startPage (ui s) <= pageCount info
  /\ 1 <= endPage (ui s) <= pageCount info
  /\ (isValidRange (ui s) = false <-> endPage (ui s) < startPage (ui s)).
Proof.
  intros Hrun Hinfo Hn.
  assert (Hb : boundsInDocument (ui s)).
  { revert Hrun. apply (run_invariant (fun s => boundsInDocument (ui s))).
    - intros e s0 s1. apply step_bounds.
    - intros i. discriminate. }
  destruct (Hb info Hinfo Hn) as [Hs He].
  split; [exact Hs |]. split; [exact He |].
  pose proof (isValidRange_iff (ui s) info Hinfo) as Hv.
  destruct (isValidRange (ui s)); split; intros H; try discriminate; lia.
Qed.

(** X14. On a document with at least one page every quick-select press that
    is accepted leaves a valid range. *)
Theorem presets_leave_valid_range (e : Event) (s s' : Sys) (info : PdfInfo) :
  pdfInfo (ui s) = Some info ->
  1 <= pageCount info ->
  In e [PressAll; PressFirst; PressLast; PressFirstHalf] ->
  step v e s = Some s' ->
  isValidRange (ui s') = true /\ pdfInfo (ui s') = Some info.
Proof.
  intros Hinfo Hn He H.
  assert (Hv : forall st', pdfInfo st' = Some info ->
                           1 <= startPage st' -> startPage st' <= endPage st' ->
                           endPage st' <= pageCount info ->
                           isValidRange st' = true /\ pdfInfo st' = Some info).
  { intros st' Hi H1 H2 H3. split; [| exact Hi].
    apply (isValidRange_iff st' info Hi). lia. }
  pose proof (Math_ceil_half_bounds (pageCount info) Hn) as Hceil.
  destruct He as [<- | [<- | [<- | [<- | []]]]]; open_step H;
    rewrite Hinfo in Hc; injection Hc as <-;
    apply Hv; cbn; assumption || lia.
Qed.

(** *** The object URL of the preview *)

Lemma resolveURL_In (urls : list (nat * Blob)) (u : nat) (blob : Blob) :
  NoDup (map fst urls) -> In (u, blob) urls -> resolveURL urls u = Some blob.
Proof.
  induction urls as [|[u' b'] urls IH]; intros Hnd Hin; [destruct Hin |].
  cbn [resolveURL]. cbn [map fst] in Hnd. inversion Hnd as [|? ? Hnot Hnd']; subst.
  destruct Hin as [[= -> ->] | Hin].
  - now rewrite Nat.eqb_refl.
  - destruct (Nat.eqb u' u) eqn:E; [| now apply IH].
    apply Nat.eqb_eq in E. subst u'. exfalso. apply Hnot.
    apply in_map_iff. now exists (u, blob).
Qed.

Lemma NoDup_filter_fst (f : nat * Blob -> bool) (urls : list (nat * Blob)) :
  NoDup (map fst urls) -> NoDup (map fst (filter f urls)).
Proof.
  induction urls as [|x urls IH]; intros Hnd; [exact Hnd |].
  cbn [map] in Hnd. inversion Hnd as [|? ? Hnot Hnd']; subst.
  cbn [filter]. destruct (f x); [| now apply IH].
  cbn [map]. constructor; [| now apply IH].
  intros Hin. apply Hnot. apply in_map_iff in Hin. destruct Hin as (y & Hy & Hin).
  apply filter_In in Hin. apply in_map_iff. exists y. now split.
Qed.

Lemma createObjectURL_distinct (blob : Blob) (w : World) :
  worldFresh w -> NoDup (map fst (objectURLs w)) ->
  NoDup (map fst (objectURLs (snd (URL_createObjectURL blob w)))).
Proof.
  intros Hf Hnd. cbn. constructor; [| exact Hnd].
  intros Hin. apply in_map_iff in Hin. destruct Hin as (y & Hy & Hin).
  unfold worldFresh in Hf. rewrite Forall_forall in Hf. specialize (Hf y Hin). lia.
Qed.

Lemma resume_objectUrlsOk (t : Task) (st : State) (w : World) :
  objectUrlsOk v st w ->
  objectUrlsOk v (fst (resume v t st w)) (snd (resume v t st w)).
Proof.
  intros (Hf & Hnd & Hlive).
  split; [now apply resume_fresh |].
  destruct t as [file | info a b]; cbn [resume].
  - unfold loadPdf_end, loadPdf_try.
    destruct (file_arrayBuffer file) as [buf|]; cbn [bind_opt];
      [| cbn [fst snd]; split; [exact Hnd |];
         destruct v; try exact Hlive; cbn; discriminate].
    destruct (PDFDocument_load buf) as [pdf|]; cbn [bind_opt];
      [| cbn [fst snd]; split; [exact Hnd |];
         destruct v; try exact Hlive; cbn; discriminate].
    destruct v; cbn [fst snd URL_createObjectURL]; try (split; [exact Hnd | exact Hlive]).
    split; [apply (createObjectURL_distinct _ w Hf Hnd) |].
    cbn. intros info [= <-]. cbn. exists (nextURL w). split; [reflexivity | now left].
  - unfold extractPages_end.
    destruct (extractPages_try info a b w) as [w'|] eqn:Ht; cbn [fst snd].
    + destruct (extractPages_try_urls info a b w w' Hf Ht) as (Hu & _ & _).
      rewrite Hu. split; [exact Hnd |]. destruct v; exact Hlive.
    + split; [exact Hnd |]. destruct v; exact Hlive.
Qed.

Lemma resetFile_objectUrlsOk (st : State) (w : World) :
  objectUrlsOk v st w ->
  objectUrlsOk v (fst (resetFile v st w)) (snd (resetFile v st w)).
Proof.
  intros (Hf & Hnd & Hlive). unfold resetFile.
  destruct v; cbn [fst snd]; try (split; [exact Hf | split; [exact Hnd | exact Hlive]]).
  assert (Hnone : forall info,
             pdfInfo (setError None (setEndPage 1 (setStartPage 1 (setPdfInfo None st))))
             = Some info ->
             False) by (cbn; discriminate).
  destruct (pdfInfo st) as [i|]; [destruct (url i) as [u|] |].
  - split; [now apply revokeObjectURL_fresh |]. split.
    + cbn. now apply NoDup_filter_fst.
    + intros info Hi. destruct (Hnone info Hi).
  - split; [exact Hf |]. split; [exact Hnd |]. intros info Hi. destruct (Hnone info Hi).
  - split; [exact Hf |]. split; [exact Hnd |]. intros info Hi. destruct (Hnone info Hi).
Qed.

Lemma step_objectUrlsOk (e : Event) (s s' : Sys) :
  objectUrlsOk v (ui s) (world s) -> step v e s = Some s' ->
  objectUrlsOk v (ui s') (world s').
Proof.
  intros Hs H.
  assert (Hsame : forall st', pdfInfo st' = pdfInfo (ui s) ->
                              objectUrlsOk v st' (world s)).
  { intros st' Hp. destruct Hs as (Hf & Hnd & Hlive).
    split; [exact Hf |]. split; [exact Hnd |].
    destruct v; try exact Hlive; rewrite Hp; exact Hlive. }
  destruct e; open_step H; cbn [ui world withUi spawn fst].
  all: try (now apply resume_objectUrlsOk).
  all: try (now apply resetFile_objectUrlsOk).
  all: apply Hsame; try reflexivity.
  all: unfold handleFileSelect_begin, handleDrop_begin;
    destruct files0 as [file|]; [destruct (String.eqb _ _) |]; reflexivity.
Qed.

(** X9. The object URLs the page holds, in every state reached from the empty
    page.  In the preview variant the URL recorded with the document on
    screen is live: it resolves to a blob of type [application/pdf] holding
    the document's bytes, so neither an extraction nor a later load revokes
    the URL the preview reads.  The other two variants keep no object URL:
    the one an extraction creates is revoked before it ends. *)
Theorem reachable_object_urls (es : list Event) (s : Sys) :
  run v es initialSys = Some s ->
  (v = VPreview ->
   forall info, pdfInfo (ui s) = Some info ->
     exists u, url info = Some u
       /\ resolveURL (objectURLs (world s)) u
          = Some {| blob_parts := data info; blob_type := "application/pdf" |})
  /\ (v <> VPreview -> objectURLs (world s) = []).
Proof.
  intros Hrun.
  assert (Hok : objectUrlsOk v (ui s) (world s)).
  { revert Hrun. apply (run_invariant (fun s => objectUrlsOk v (ui s) (world s))).
    - intros e s0 s1. apply step_objectUrlsOk.
    - split; [constructor |]. split; [constructor |].
      destruct v; cbn; try reflexivity. discriminate. }
  destruct Hok as (_ & Hnd & Hlive). split.
  - intros Hv info Hinfo. rewrite Hv in Hlive.
    destruct (Hlive info Hinfo) as (u & Hu & Hin).
    exists u. split; [exact Hu |]. now apply resolveURL_In.
  - intros Hv. destruct v; try exact Hlive. contradiction.
Qed.

End Invariants.

Lemma reachable_downloads_witness :
  exists s,
    @run byteLib VSerif
      [FilePicked (Some fileA); Settled 0%nat; TypedStart "3"; TypedEnd "5";
       PressExtract; Settled 0%nat] initialSys = Some s
    /\ downloads (world s)
       = [pdfDownload "a_pages_3-5.pdf" [Byte.x25; Byte.x32; Byte.x33; Byte.x34]]
    /\ Forall pdfDownloadOk (downloads (world s)).
Proof.
  destruct (@run byteLib VSerif
              [FilePicked (Some fileA); Settled 0%nat; TypedStart "3"; TypedEnd "5";
               PressExtract; Settled 0%nat] initialSys) as [s|] eqn:E;
    [| vm_compute in E; discriminate].
  exists s. split; [reflexivity |]. split.
  - vm_compute in E. injection E as <-. reflexivity.
  - exact (proj1 (@reachable_downloads byteLib VSerif _ s E)).
Defined.

Lemma reachable_processing_witness :
  exists s,
    @run byteLib VSerif [FilePicked (Some fileA)] initialSys = Some s
    /\ isProcessing (ui s) = true
    /\ inflight s <> [].
Proof.
  destruct (@run byteLib VSerif [FilePicked (Some fileA)] initialSys) as [s|] eqn:E;
    [| vm_compute in E; discriminate].
  exists s. split; [reflexivity |].
  assert (Hp : isProcessing (ui s) = true)
    by (vm_compute in E; injection E as <-; reflexivity).
  split; [exact Hp |].
  exact (@reachable_processing byteLib VSerif _ s E Hp).
Defined.

Lemma reachable_extractions_copy_witness :
  exists s,
    @run byteLib VSerif
      [FilePicked (Some fileA); Settled 0%nat; TypedStart "3"; TypedEnd "5"; PressExtract]
      initialSys = Some s
    /\ In (ExtractPagesTask {| name := "a.pdf"; pageCount := 10; size := "11 B";
                               data := tenPages; url := None |} 3 5) (inflight s)
    /\ exists out,
         @extractPages_newPdf byteLib
           {| name := "a.pdf"; pageCount := 10; size := "11 B";
              data := tenPages; url := None |} 3 5 = Some out
         /\ getPageCount out = 5 - 3 + 1.
Proof.
  destruct (@run byteLib VSerif
              [FilePicked (Some fileA); Settled 0%nat; TypedStart "3"; TypedEnd "5";
               PressExtract] initialSys) as [s|] eqn:E;
    [| vm_compute in E; discriminate].
  exists s. split; [reflexivity |].
  assert (Hin : In (ExtractPagesTask {| name := "a.pdf"; pageCount := 10; size := "11 B";
                                        data := tenPages; url := None |} 3 5)
                   (inflight s))
    by (vm_compute in E; injection E as <-; left; reflexivity).
  split; [exact Hin |].
  destruct (@reachable_extractions_copy byteLib VSerif _ s _ 3 5 E Hin)
    as (_ & _ & _ & out & Hnew & Hlen & _).
  exists out. split; [exact Hnew | exact Hlen].
Defined.

Lemma reachable_bounds_witness :
  exists s,
    @run byteLib VSerif
      [FilePicked (Some fileA); Settled 0%nat; TypedEnd "99"; TypedStart "0"; PressLast;
       TypedEnd "4"] initialSys = Some s
    /\ pdfInfo (ui s) = Some {| name := "a.pdf"; pageCount := 10; size := "11 B";
                                data := tenPages; url := None |}
    /\ 1 <= startPage (ui s) <= 10 /\ 1 <= endPage (ui s) <= 10
    /\ isValidRange (ui s) = false.
Proof.
  destruct (@run byteLib VSerif
              [FilePicked (Some fileA); Settled 0%nat; TypedEnd "99"; TypedStart "0";
               PressLast; TypedEnd "4"] initialSys) as [s|] eqn:E;
    [| vm_compute in E; discriminate].
  exists s. split; [reflexivity |].
  assert (Hi : pdfInfo (ui s) = Some {| name := "a.pdf"; pageCount := 10; size := "11 B";
                                        data := tenPages; url := None |})
    by (vm_compute in E; injection E as <-; reflexivity).
  split; [exact Hi |].
  assert (Hn : 1 <= pageCount {| name := "a.pdf"; pageCount := 10; size := "11 B";
                                 data := tenPages; url := None |}) by (cbn; lia).
  destruct (@reachable_bounds byteLib VSerif _ s _ E Hi Hn) as (Hs & He & Hiff).
  cbn [pageCount] in Hs, He.
  split; [exact Hs |]. split; [exact He |].
  vm_compute in E. injection E as <-. reflexivity.
Defined.

Lemma presets_leave_valid_range_witness :
  pdfInfo (ui (readySys tenPageInfo 7 4)) = Some tenPageInfo
  /\ 1 <= pageCount tenPageInfo
  /\ @step byteLib VSerif PressFirstHalf (readySys tenPageInfo 7 4)
     = Some (readySys tenPageInfo 1 5)
  /\ isValidRange (ui (readySys tenPageInfo 1 5)) = true.
Proof.
  assert (Hn : 1 <= pageCount tenPageInfo) by (cbn; lia).
  assert (Hstep : @step byteLib VSerif PressFirstHalf (readySys tenPageInfo 7 4)
                  = Some (readySys tenPageInfo 1 5)) by reflexivity.
  split; [reflexivity |]. split; [exact Hn |]. split; [exact Hstep |].
  refine (proj1 (@presets_leave_valid_range byteLib VSerif PressFirstHalf
                   (readySys tenPageInfo 7 4) (readySys tenPageInfo 1 5) tenPageInfo
                   eq_refl Hn _ Hstep)).
  right. right. right. left. reflexivity.
Defined.

Lemma reachable_object_urls_witness :
  exists s,
    @run byteLib VPreview
      [FileDropped (Some fileA); FileDropped (Some fileB); Settled 0%nat; PressExtract;
       Settled 0%nat; Settled 0%nat] initialSys = Some s
    /\ exists info u,
         pdfInfo (ui s) = Some info /\ url info = Some u
         /\ resolveURL (objectURLs (world s)) u
            = Some {| blob_parts := data info; blob_type := "application/pdf" |}.
Proof.
  destruct (@run byteLib VPreview
              [FileDropped (Some fileA); FileDropped (Some fileB); Settled 0%nat;
               PressExtract; Settled 0%nat; Settled 0%nat] initialSys) as [s|] eqn:E;
    [| vm_compute in E; discriminate].
  exists s. split; [reflexivity |].
  destruct (pdfInfo (ui s)) as [info|] eqn:Hinfo;
    [| vm_compute in E; injection E as <-; discriminate].
  destruct (proj1 (@reachable_object_urls byteLib VPreview _ s E) eq_refl info Hinfo)
    as (u & Hu & Hres).
  exists info, u. split; [reflexivity |]. split; [exact Hu | exact Hres].
Defined.
